(** * The LangChain callback handler of langfuse-python

    A shallow embedding of [langfuse/callback.py]: the [CallbackHandler]
    that listens to the start, end and error notifications of a LangChain
    execution and rebuilds a trace of nested spans and generations.

    Python values are embedded as a small universe [value]; dictionaries are
    finite maps with string keys; the handler object is a record threaded
    through a state-and-exception monad, so that an assignment made before a
    [raise] stays visible after the enclosing [except], as in Python. *)

From Stdlib Require Import QArith Ascii String.
From stdpp Require Import base option list strings gmap.

Set Default Proof Using "Type".
#[local] Set Warnings "-register-all".
#[local] Open Scope string_scope.
#[local] Open Scope list_scope.

(** ** Python values *)

(** Exceptions that the modelled code raises.  Every class below derives
    from Python's [Exception], which is what the handler's
    [except Exception] clauses catch. *)
Inductive exn_class : Type :=
  | KeyError
  | IndexError
  | TypeError
  | AttributeError
  | ValueError
  | PlainException.

Record exn : Type := Exn { exn_kind : exn_class; exn_str : string }.

(** The error object handed to an [on_*_error] notification:
    [Union[Exception, KeyboardInterrupt]]. *)
Inductive error_obj : Type :=
  | ErrException (e : exn)
  | ErrKeyboardInterrupt (msg : string).

(** [str(error)] *)
Definition str_error (e : error_obj) : string :=
  match e with
  | ErrException e => exn_str e
  | ErrKeyboardInterrupt msg => msg
  end.

Inductive value : Type :=
  | VNone
  | VBool (b : bool)
  | VStr (s : string)
  | VNum (q : Q)
  | VList (l : list value)
  | VDict (d : gmap string value)
  | VErr (e : error_obj).

Abbreviation dict := (gmap string value).

(** [v is None] *)
Definition is_none (v : value) : bool :=
  match v with VNone => true | _ => false end.

Definition opt_str (o : option string) : value :=
  match o with Some s => VStr s | None => VNone end.

Definition opt_dict (o : option dict) : value :=
  match o with Some d => VDict d | None => VNone end.

(** Results of code that may raise. *)
Abbreviation res A := (exn + A)%type.
Abbreviation Ok a := (inr a) (only parsing).
Abbreviation Raise e := (inl e) (only parsing).

(** [d.get(k, dflt)] and [d.get(k)] *)
Definition dict_get (k : string) (dflt : value) (d : dict) : value :=
  default dflt (d !! k).

Definition dict_get_none (k : string) (d : dict) : value :=
  dict_get k VNone d.

(** [d[k]] *)
Definition dict_getitem (k : string) (d : dict) : res value :=
  match d !! k with
  | Some v => Ok v
  | None => Raise (Exn KeyError k)
  end.

(** [d.update(m)]: the entries of [m] win. *)
Definition dict_update (d m : dict) : dict := m ∪ d.

(** The bound method [v.get]: only mappings have one. *)
Definition as_mapping (v : value) : res dict :=
  match v with
  | VDict d => Ok d
  | _ => Raise (Exn AttributeError "object has no attribute 'get'")
  end.

(** ** Strings *)

(** The characters for which [str.isspace] holds, among code points below
    256. *)
Definition py_isspace (c : ascii) : bool :=
  let n := nat_of_ascii c in
  ((9 <=? n)%nat && (n <=? 13)%nat)
  || ((28 <=? n)%nat && (n <=? 32)%nat)
  || (n =? 133)%nat || (n =? 160)%nat.

Fixpoint lstrip_chars (l : list ascii) : list ascii :=
  match l with
  | [] => []
  | c :: r => if py_isspace c then lstrip_chars r else l
  end.

Definition strip_chars (l : list ascii) : list ascii :=
  rev (lstrip_chars (rev (lstrip_chars l))).

(** [s.strip()] *)
Definition strip (s : string) : string :=
  string_of_list_ascii (strip_chars (list_ascii_of_string s)).

(** [s[-1]] on a string: its last character, as a string. *)
Definition str_last (s : string) : option string :=
  match last (list_ascii_of_string s) with
  | Some c => Some (String c EmptyString)
  | None => None
  end.

(** [v[-1]] *)
Definition subscript_last (v : value) : res value :=
  match v with
  | VStr s =>
      match str_last s with
      | Some c => Ok (VStr c)
      | None => Raise (Exn IndexError "string index out of range")
      end
  | VList l =>
      match last l with
      | Some x => Ok x
      | None => Raise (Exn IndexError "list index out of range")
      end
  | VDict _ => Raise (Exn KeyError "-1")
  | VNone | VBool _ | VNum _ | VErr _ =>
      Raise (Exn TypeError "object is not subscriptable")
  end.

(** ** NameResolver: [CallbackHandler.get_langchain_run_name] *)

Definition get_langchain_run_name (serialized kwargs : dict) : res value :=
  let fallback :=
    subscript_last
      (dict_get "name" (dict_get "id" (VList [VStr "<unknown>"]) serialized)
         serialized) in
  match kwargs !! "name" with
  | Some v => if is_none v then fallback else Ok v
  | None => fallback
  end.

(** ** MetadataMerger: [CallbackHandler.__join_tags_and_metadata] *)

Definition tags_value (tags : list string) : value := VList (VStr <$> tags).

Definition __join_tags_and_metadata
    (tags : option (list string)) (metadata : option dict) : option dict :=
  match tags, metadata with
  | None, None => None
  | _, _ =>
      match tags with
      | Some ts =>
          if (0 <? length ts)%nat then
            let final_dict : dict := {[ "tags" := tags_value ts ]} in
            match metadata with
            | Some m => Some (dict_update final_dict m)
            | None => Some final_dict
            end
          else metadata
      | None => metadata
      end
  end.

(** ** ResponseExtractor: [_extract_response] *)

(** One generated candidate.  [cand_text] is its [text] attribute;
    [cand_additional_kwargs] is [message.additional_kwargs], absent on a
    candidate that carries no [message] attribute (a plain, non-chat
    generation). *)
Record Candidate : Type := {
  cand_text : option string;
  cand_additional_kwargs : option dict
}.

Record LLMResult : Type := {
  generations : list (list Candidate);
  llm_output : option dict
}.

Definition message_additional_kwargs (c : Candidate) : res value :=
  match cand_additional_kwargs c with
  | Some d => Ok (VDict d)
  | None => Raise (Exn AttributeError "object has no attribute 'message'")
  end.

Definition _extract_response (last_response : Candidate) : res value :=
  match cand_text last_response with
  | Some t =>
      if decide (strip t ≠ "") then Ok (VStr (strip t))
      else message_additional_kwargs last_response
  | None => message_additional_kwargs last_response
  end.

(** [response.generations[-1][-1]] *)
Definition last_candidate (response : LLMResult) : res Candidate :=
  match last (generations response) with
  | None => Raise (Exn IndexError "list index out of range")
  | Some batch =>
      match last batch with
      | None => Raise (Exn IndexError "list index out of range")
      | Some c => Ok c
      end
  end.

(** [None if response.llm_output is None else response.llm_output["token_usage"]] *)
Definition llm_usage_of (response : LLMResult) : res value :=
  match llm_output response with
  | None => Ok VNone
  | Some d => dict_getitem "token_usage" d
  end.

(** ** Model parameters, as collected in [__on_llm_action] *)

Definition model_parameter_keys : list string :=
  ["temperature"; "max_tokens"; "top_p"; "frequency_penalty";
   "presence_penalty"; "request_timeout"].

(** The dictionary display followed by the comprehension that keeps the
    entries whose value is not [None]. *)
Definition model_parameters (invocation_params : dict) : dict :=
  filter (λ kv, is_none kv.2 = false)
    (list_to_map
       ((λ k, (k, dict_get_none k invocation_params)) <$> model_parameter_keys)
     : dict).


(** ** Identifiers *)

(** A run identifier is a [uuid.UUID]; it is represented by its canonical
    text, so that [str(run_id)] is the text itself. *)
Abbreviation UUID := string.

(** Identifier strings of traces, observations and events: either a string
    that was supplied, or the [n]-th string drawn from [uuid4()]. *)
Inductive ident : Type :=
  | Given (s : string)
  | Fresh (n : nat).

Definition str_uuid (run_id : UUID) : ident := Given run_id.

(** Keys of the registry [self.runs]: the [UUID] objects of the
    notifications, and the identifier string of a span supplied at
    construction.  A [UUID] object never equals a string. *)
Inductive run_key : Type :=
  | RunId (u : UUID)
  | ClientId (i : ident).

#[global] Instance ident_eq_dec : EqDecision ident.
Proof. solve_decision. Defined.

#[global] Instance ident_countable : Countable ident.
Proof.
  refine (inj_countable'
    (λ i, match i with Given s => inl s | Fresh n => inr n end)
    (λ x, match x with inl s => Given s | inr n => Fresh n end) _).
  by intros [].
Defined.

#[global] Instance run_key_eq_dec : EqDecision run_key.
Proof. solve_decision. Defined.

#[global] Instance run_key_countable : Countable run_key.
Proof.
  refine (inj_countable'
    (λ k, match k with RunId u => inl u | ClientId i => inr i end)
    (λ x, match x with inl u => RunId u | inr i => ClientId i end) _).
  by intros [].
Defined.

(** ** Observation handles and the event queue *)

(** Modelled from the spec: [langfuse/api/resources/commons/types/observation_level.py]
    is missing; the handler only names its member [ERROR], the error level
    of section 4.1. *)
Inductive ObservationLevel : Type := DEBUG | DEFAULT | WARNING | ERROR.

(** Modelled from the spec: the stateful trace client of [langfuse/client.py]
    is missing; this is the [TraceHandle] of the data model (section 3),
    with the version recorded by [ensureTrace]. *)
Record TraceHandle : Type := {
  t_id : ident;
  t_name : value;
  t_metadata : value;
  t_session_id : value;
  t_user_id : value;
  t_input : value;
  t_output : value;
  t_version : value
}.

(** Modelled from the spec: the stateful span and generation clients of
    [langfuse/client.py] are missing; these are the fields shared by
    [SpanHandle] and [GenerationHandle] in the data model, with what [end]
    records: the status level, the message, and that the record is closed. *)
Record Observation : Type := {
  o_id : ident;
  o_trace_id : ident;
  o_parent_id : option ident;
  o_name : value;
  o_input : value;
  o_output : value;
  o_metadata : value;
  o_version : value;
  o_level : option ObservationLevel;
  o_status_message : value;
  o_closed : bool
}.

(** Modelled from the spec: the fields that a [GenerationHandle] adds. *)
Record GenerationInfo : Type := {
  g_model : value;
  g_model_parameters : dict;
  g_usage : value
}.

(** Modelled from the spec: the tagged variant held in the registry. *)
Inductive ObservationHandle : Type :=
  | SpanHandle (o : Observation)
  | GenerationHandle (o : Observation) (g : GenerationInfo).

Definition handle_obs (h : ObservationHandle) : Observation :=
  match h with SpanHandle o | GenerationHandle o _ => o end.

(** The body of the diagnostic event built by [_parse_model_and_log_errors].
    The source stores [str(kwargs)] and [str(serialized)]; the two mappings
    are kept as they are instead of their renderings. *)
Record SdkLog : Type := {
  sdk_log : string;
  sdk_kwargs : dict;
  sdk_serialized : dict;
  sdk_exception : option string
}.

Inductive EventBody : Type :=
  | BTrace (t : TraceHandle)
  | BObservation (o : ObservationHandle)
  | BSdkLog (l : SdkLog).

(** An event as [_report_error] builds it; the timestamp (a clock reading)
    is left out. *)
Record Event : Type := {
  ev_id : ident;
  ev_type : string;
  ev_body : EventBody
}.

(** The keyword arguments of [span(...)] and [generation(...)]. *)
Record Content : Type := {
  c_id : option string;
  c_name : value;
  c_input : value;
  c_metadata : value;
  c_version : value
}.

(** The keyword arguments of [end(...)]; an argument that is not passed
    leaves the field as it was. *)
Record EndArgs : Type := {
  e_output : option value;
  e_level : option ObservationLevel;
  e_status_message : option value;
  e_usage : option value;
  e_version : value
}.

Inductive Parent : Type :=
  | PTrace (t : TraceHandle)
  | PObs (o : ObservationHandle).

(** Modelled from the spec: [child(...)] of section 3, "a new handle of the
    appropriate kind linked to the parent". *)
Definition new_observation (p : Parent) (i : ident) (c : Content) : Observation :=
  {| o_id := i;
     o_trace_id := match p with
                   | PTrace t => t_id t
                   | PObs h => o_trace_id (handle_obs h)
                   end;
     o_parent_id := match p with
                    | PTrace _ => None
                    | PObs h => Some (o_id (handle_obs h))
                    end;
     o_name := c_name c;
     o_input := c_input c;
     o_output := VNone;
     o_metadata := c_metadata c;
     o_version := c_version c;
     o_level := None;
     o_status_message := VNone;
     o_closed := false |}.

(** Modelled from the spec: [end(output, status, error_message?, usage?)]
    of section 3, "producing an updated, closed record". *)
Definition close_obs (a : EndArgs) (o : Observation) : Observation :=
  {| o_id := o_id o;
     o_trace_id := o_trace_id o;
     o_parent_id := o_parent_id o;
     o_name := o_name o;
     o_input := o_input o;
     o_output := default (o_output o) (e_output a);
     o_metadata := o_metadata o;
     o_version := e_version a;
     o_level := match e_level a with Some l => Some l | None => o_level o end;
     o_status_message := default (o_status_message o) (e_status_message a);
     o_closed := true |}.

Definition close_handle (a : EndArgs) (h : ObservationHandle) : ObservationHandle :=
  match h with
  | SpanHandle o => SpanHandle (close_obs a o)
  | GenerationHandle o g =>
      GenerationHandle (close_obs a o)
        {| g_model := g_model g;
           g_model_parameters := g_model_parameters g;
           g_usage := default (g_usage g) (e_usage a) |}
  end.

(** Modelled from the spec: the explicit update call of section 3 that
    writes a trace's output. *)
Definition trace_with_output (out : value) (t : TraceHandle) : TraceHandle :=
  {| t_id := t_id t;
     t_name := t_name t;
     t_metadata := t_metadata t;
     t_session_id := t_session_id t;
     t_user_id := t_user_id t;
     t_input := t_input t;
     t_output := out;
     t_version := t_version t |}.

(** ** The handler object *)

(** The [Langfuse] client built by [__init__] from [args]. *)
Record Langfuse : Type := {
  lf_public_key : string;
  lf_secret_key : string;
  lf_host : string;
  lf_debug : bool;
  lf_release : option string;
  lf_threads : option Z;
  lf_flush_at : option Z;
  lf_flush_interval : option Z;
  lf_max_retries : option Z;
  lf_timeout : option Z;
  lf_sdk_integration : string
}.

Inductive LogRecord : Type :=
  | LogDebug (msg : string)
  | LogWarning (msg : string)
  | LogError (msg : string)
  | LogException (e : exn).

(** The attributes of a [CallbackHandler], then the three collaborators its
    methods write to: the events handed to [_task_manager], the records
    sent to the logger [log], and the number of identifiers drawn from
    [uuid4()] so far. *)
Record CallbackHandler : Type := {
  next_span_id : option string;
  trace : option TraceHandle;
  root_span : option ObservationHandle;
  langfuse : option Langfuse;
  version : option string;
  session_id : option string;
  user_id : option string;
  trace_name : option string;
  runs : gmap run_key ObservationHandle;
  _task_manager : list Event;
  log : list LogRecord;
  uuid_drawn : nat
}.

Definition set_next_span_id (x : option string) (h : CallbackHandler) : CallbackHandler :=
  {| next_span_id := x; trace := trace h; root_span := root_span h;
     langfuse := langfuse h; version := version h; session_id := session_id h;
     user_id := user_id h; trace_name := trace_name h; runs := runs h;
     _task_manager := _task_manager h; log := log h; uuid_drawn := uuid_drawn h |}.

Definition set_trace (x : option TraceHandle) (h : CallbackHandler) : CallbackHandler :=
  {| next_span_id := next_span_id h; trace := x; root_span := root_span h;
     langfuse := langfuse h; version := version h; session_id := session_id h;
     user_id := user_id h; trace_name := trace_name h; runs := runs h;
     _task_manager := _task_manager h; log := log h; uuid_drawn := uuid_drawn h |}.

Definition set_runs (x : gmap run_key ObservationHandle) (h : CallbackHandler) : CallbackHandler :=
  {| next_span_id := next_span_id h; trace := trace h; root_span := root_span h;
     langfuse := langfuse h; version := version h; session_id := session_id h;
     user_id := user_id h; trace_name := trace_name h; runs := x;
     _task_manager := _task_manager h; log := log h; uuid_drawn := uuid_drawn h |}.

Definition set_task_manager (x : list Event) (h : CallbackHandler) : CallbackHandler :=
  {| next_span_id := next_span_id h; trace := trace h; root_span := root_span h;
     langfuse := langfuse h; version := version h; session_id := session_id h;
     user_id := user_id h; trace_name := trace_name h; runs := runs h;
     _task_manager := x; log := log h; uuid_drawn := uuid_drawn h |}.

Definition set_log (x : list LogRecord) (h : CallbackHandler) : CallbackHandler :=
  {| next_span_id := next_span_id h; trace := trace h; root_span := root_span h;
     langfuse := langfuse h; version := version h; session_id := session_id h;
     user_id := user_id h; trace_name := trace_name h; runs := runs h;
     _task_manager := _task_manager h; log := x; uuid_drawn := uuid_drawn h |}.

Definition set_uuid_drawn (x : nat) (h : CallbackHandler) : CallbackHandler :=
  {| next_span_id := next_span_id h; trace := trace h; root_span := root_span h;
     langfuse := langfuse h; version := version h; session_id := session_id h;
     user_id := user_id h; trace_name := trace_name h; runs := runs h;
     _task_manager := _task_manager h; log := log h; uuid_drawn := x |}.

(** ** The monad of method bodies *)

(** A computation takes the handler and returns it, possibly mutated,
    with either a result or the exception that was raised. *)
Definition M (A : Type) : Type := CallbackHandler → CallbackHandler * res A.

#[global] Instance M_ret : MRet M := λ A a h, (h, inr a).

#[global] Instance M_bind : MBind M := λ A B f m h,
  match m h with
  | (h', inl e) => (h', inl e)
  | (h', inr a) => f a h'
  end.

Definition raise {A} (e : exn) : M A := λ h, (h, inl e).

Definition lift {A} (r : res A) : M A := λ h, (h, r).

Definition get : M CallbackHandler := λ h, (h, inr h).

Definition modify (f : CallbackHandler → CallbackHandler) : M unit :=
  λ h, (f h, inr ()).

(** [try: body  except Exception as e: handler(e)] *)
Definition try_catch {A} (body : M A) (handler : exn → M A) : M A := λ h,
  match body h with
  | (h', inl e) => handler e h'
  | (h', inr a) => (h', inr a)
  end.

Definition log_record (r : LogRecord) : M unit :=
  modify (λ h, set_log (log h ++ [r]) h).

(** [try: body  except Exception as e: self.log.exception(e)] *)
Definition try_except (body : M unit) : M unit :=
  try_catch body (λ e, log_record (LogException e)).

(** [str(uuid4())] *)
Definition uuid4 : M ident := λ h,
  (set_uuid_drawn (S (uuid_drawn h)) h, inr (Fresh (uuid_drawn h))).

(** [self._task_manager.add_task({"id": str(uuid4()), "type": ty, "body": b})] *)
Definition add_task (ty : string) (b : EventBody) : M unit :=
  i ← uuid4;
  modify (λ h, set_task_manager
                 (_task_manager h ++ [{| ev_id := i; ev_type := ty; ev_body := b |}]) h).

Definition set_run (run_id : UUID) (o : ObservationHandle) : M unit :=
  modify (λ h, set_runs (<[RunId run_id := o]> (runs h)) h).

(** ** The clients' operations *)

Definition pick_id (i : option string) : M ident :=
  match i with
  | Some s => mret (Given s)
  | None => uuid4
  end.

(** Modelled from the spec: [parent.span] applied to the content; the created record is
    forwarded to the event queue (section 2, EventCorrelator). *)
Definition client_span (p : Parent) (c : Content) : M ObservationHandle :=
  i ← pick_id (c_id c);
  let o := SpanHandle (new_observation p i c) in
  add_task "span-create" (BObservation o);;
  mret o.

(** Modelled from the spec: [parent.generation] applied to the content. *)
Definition client_generation (p : Parent) (c : Content)
    (model : value) (params : dict) : M ObservationHandle :=
  i ← pick_id (c_id c);
  let o := GenerationHandle (new_observation p i c)
             {| g_model := model; g_model_parameters := params; g_usage := VNone |} in
  add_task "generation-create" (BObservation o);;
  mret o.

(** Modelled from the spec: [handle.end(...)]; the closed record is
    forwarded to the event queue. *)
Definition client_end (o : ObservationHandle) (a : EndArgs) : M ObservationHandle :=
  let o' := close_handle a o in
  add_task
    (match o with
     | SpanHandle _ => "span-update"
     | GenerationHandle _ _ => "generation-update"
     end) (BObservation o');;
  mret o'.

(** Modelled from the spec: [self.langfuse.trace(...)], the creation of the
    root record of one logical execution. *)
Definition client_trace (t : TraceHandle) : M TraceHandle :=
  add_task "trace-create" (BTrace t);;
  mret t.

(** Modelled from the spec: [trace.update(output=...)]. *)
Definition client_trace_update (t : TraceHandle) (out : value) : M TraceHandle :=
  let t' := trace_with_output out t in
  add_task "trace-update" (BTrace t');;
  mret t'.

(** ** The methods of [CallbackHandler] *)

(** Every notification method has the shape
    [try: body  except Exception as e: self.log.exception(e)];
    the statements under [try] are named [on_x_body], and [on_x] wraps
    them with [try_except]. *)

(** The default [["<unknown>"]] of [serialized.get("id", ...)]. *)
Definition unknown_id : value := VList [VStr "<unknown>"].

(** [self.trace.id]: fails when no trace is held. *)
Definition getattr_trace : M TraceHandle :=
  h ← get;
  match trace h with
  | Some t => mret t
  | None => raise (Exn AttributeError "'NoneType' object has no attribute 'id'")
  end.

(** [k in self.runs] *)
Definition in_runs (k : option UUID) (h : CallbackHandler) : bool :=
  match k with
  | Some u => match runs h !! RunId u with Some _ => true | None => false end
  | None => false
  end.

(** [self.runs[k]] *)
Definition lookup_run (k : option UUID) : M ObservationHandle :=
  h ← get;
  match k with
  | Some u =>
      match runs h !! RunId u with
      | Some o => mret o
      | None => raise (Exn KeyError u)
      end
  | None => raise (Exn KeyError "None")
  end.

(** [if k is None or k not in self.runs: raise Exception(msg)] *)
Definition require_run (k : option UUID) (msg : string) : M unit :=
  h ← get;
  if in_runs k h then mret () else raise (Exn PlainException msg).

Definition setNextSpan (id : string) : M unit :=
  modify (set_next_span_id (Some id)).

Definition on_llm_new_token (token : string) (run_id : UUID)
    (parent_run_id : option UUID) : M unit :=
  log_record (LogDebug "on llm new token").

Definition _report_error (error : SdkLog) : M unit :=
  add_task "sdk-log" (BSdkLog error).

Definition _update_trace (run_id : UUID) (parent_run_id : option UUID)
    (output : value) : M unit :=
  h ← get;
  match parent_run_id, trace h with
  | None, Some t =>
      if decide (t_id t = str_uuid run_id) then
        t' ← client_trace_update t output;
        modify (set_trace (Some t'))
      else mret ()
  | _, _ => mret ()
  end.

Definition end_with_output (h : CallbackHandler) (output : value) : EndArgs :=
  {| e_output := Some output; e_level := None; e_status_message := None;
     e_usage := None; e_version := opt_str (version h) |}.

Definition end_with_error (h : CallbackHandler) (status_message : value) : EndArgs :=
  {| e_output := None; e_level := Some ERROR;
     e_status_message := Some status_message;
     e_usage := None; e_version := opt_str (version h) |}.

(** [self.runs[run_id] = self.runs[run_id].end(...)] *)
Definition end_run (run_id : UUID) (a : CallbackHandler → EndArgs) : M unit :=
  o ← lookup_run (Some run_id);
  h ← get;
  o' ← client_end o (a h);
  set_run run_id o'.

Definition on_retriever_error_body (error : error_obj) (run_id : UUID)
    (parent_run_id : option UUID) : M unit :=
  log_record (LogDebug "on retriever error");;
  require_run (Some run_id) "run not found";;
  end_run run_id (λ h, end_with_error h (VStr (str_error error))).

Definition on_retriever_error (error : error_obj) (run_id : UUID)
    (parent_run_id : option UUID) : M unit :=
  try_except
    (on_retriever_error_body error run_id parent_run_id).

Definition __generate_trace_and_parent (serialized : dict) (inputs : value)
    (run_id : UUID) (parent_run_id : option UUID)
    (tags : option (list string)) (metadata : option dict)
    (kwargs : dict) : M unit :=
  try_except (
    class_name ← lift (get_langchain_run_name serialized kwargs);
    h ← get;
    match trace h, parent_run_id, langfuse h with
    | Some _, None, Some _ =>
        modify (set_trace None);;
        modify (set_runs ∅)
    | _, _, _ => mret ()
    end;;
    h ← get;
    match trace h, langfuse h with
    | None, Some _ =>
        t ← client_trace
              {| t_id := str_uuid run_id;
                 t_name := match trace_name h with
                           | Some n => VStr n
                           | None => class_name
                           end;
                 t_metadata := opt_dict (__join_tags_and_metadata tags metadata);
                 t_session_id := opt_str (session_id h);
                 t_user_id := opt_str (user_id h);
                 t_input := inputs;
                 t_output := VNone;
                 t_version := opt_str (version h) |};
        modify (set_trace (Some t));;
        h ← get;
        if in_runs parent_run_id h then
          o ← client_span (PTrace t)
                {| c_id := next_span_id h;
                   c_name := class_name;
                   c_input := inputs;
                   c_metadata := opt_dict (__join_tags_and_metadata tags metadata);
                   c_version := opt_str (version h) |};
          set_run run_id o
        else mret ()
    | _, _ => mret ()
    end).

(** The call [f(..., version=self.version, **kwargs)]: a [version] among
    [kwargs] is a duplicate keyword argument. *)
Definition with_version_kwarg (ver : value) (kwargs : dict) : res dict :=
  match kwargs !! "version" with
  | Some _ =>
      Raise (Exn TypeError "got multiple values for keyword argument 'version'")
  | None => Ok (<["version" := ver]> kwargs)
  end.

(** The source has two consecutive tests, [if parent_run_id is None] and
    [if parent_run_id is not None]; they are the two branches below. *)
Definition on_chain_start_body (serialized : dict) (inputs : value)
    (run_id : UUID) (parent_run_id : option UUID)
    (tags : option (list string)) (metadata : option dict)
    (kwargs : dict) : M unit :=
  lift (subscript_last (dict_get "id" unknown_id serialized));;
  log_record (LogDebug "on chain start");;
  h ← get;
  gen_kwargs ← lift (with_version_kwarg (opt_str (version h)) kwargs);
  __generate_trace_and_parent serialized inputs run_id parent_run_id
    tags metadata gen_kwargs;;
  h ← get;
  t ← getattr_trace;
  name ← lift (get_langchain_run_name serialized kwargs);
  let content :=
    {| c_id := next_span_id h;
       c_name := name;
       c_input := inputs;
       c_metadata := opt_dict (__join_tags_and_metadata tags metadata);
       c_version := opt_str (version h) |} in
  match parent_run_id with
  | None =>
      o ← client_span
            (match root_span h with
             | None => PTrace t
             | Some rs => PObs rs
             end) content;
      set_run run_id o
  | Some p =>
      ph ← lookup_run (Some p);
      o ← client_span (PObs ph) content;
      set_run run_id o
  end.

Definition on_chain_start (serialized : dict) (inputs : value)
    (run_id : UUID) (parent_run_id : option UUID)
    (tags : option (list string)) (metadata : option dict)
    (kwargs : dict) : M unit :=
  try_except
    (on_chain_start_body serialized inputs run_id parent_run_id tags
       metadata kwargs).

Definition on_agent_action_body (action : value) (run_id : UUID)
    (parent_run_id : option UUID) : M unit :=
  log_record (LogDebug "on agent action");;
  require_run (Some run_id) "run not found";;
  end_run run_id (λ h, end_with_output h action).

Definition on_agent_action (action : value) (run_id : UUID)
    (parent_run_id : option UUID) : M unit :=
  try_except
    (on_agent_action_body action run_id parent_run_id).

Definition on_agent_finish_body (finish : value) (run_id : UUID)
    (parent_run_id : option UUID) : M unit :=
  log_record (LogDebug "on agent finish");;
  require_run (Some run_id) "run not found";;
  end_run run_id (λ h, end_with_output h finish);;
  _update_trace run_id parent_run_id finish.

Definition on_agent_finish (finish : value) (run_id : UUID)
    (parent_run_id : option UUID) : M unit :=
  try_except
    (on_agent_finish_body finish run_id parent_run_id).

Definition on_chain_end_body (outputs : value) (run_id : UUID)
    (parent_run_id : option UUID) : M unit :=
  log_record (LogDebug "on chain end");;
  require_run (Some run_id) "run not found";;
  end_run run_id (λ h, end_with_output h outputs);;
  _update_trace run_id parent_run_id outputs.

Definition on_chain_end (outputs : value) (run_id : UUID)
    (parent_run_id : option UUID) : M unit :=
  try_except
    (on_chain_end_body outputs run_id parent_run_id).

Definition on_chain_error_body (error : error_obj) (run_id : UUID)
    (parent_run_id : option UUID) : M unit :=
  log_record (LogDebug "on chain error");;
  end_run run_id (λ h, end_with_error h (VStr (str_error error)));;
  _update_trace run_id parent_run_id (VErr error).

Definition on_chain_error (error : error_obj) (run_id : UUID)
    (parent_run_id : option UUID) : M unit :=
  try_except
    (on_chain_error_body error run_id parent_run_id).

Definition on_tool_start_body (serialized : dict) (input_str : string)
    (run_id : UUID) (parent_run_id : option UUID)
    (tags : option (list string)) (metadata : option dict)
    (kwargs : dict) : M unit :=
  log_record (LogDebug "on tool start");;
  require_run parent_run_id "parent run not found";;
  meta ← lift (match __join_tags_and_metadata tags metadata with
               | Some m => Ok m
               | None => Raise (Exn AttributeError
                           "'NoneType' object has no attribute 'update'")
               end);
  let meta := dict_update meta (filter (λ kv, is_none kv.2 = false) kwargs) in
  ph ← lookup_run parent_run_id;
  h ← get;
  name ← lift (get_langchain_run_name serialized kwargs);
  o ← client_span (PObs ph)
        {| c_id := next_span_id h;
           c_name := name;
           c_input := VStr input_str;
           c_metadata := VDict meta;
           c_version := opt_str (version h) |};
  set_run run_id o;;
  modify (set_next_span_id None).

Definition on_tool_start (serialized : dict) (input_str : string)
    (run_id : UUID) (parent_run_id : option UUID)
    (tags : option (list string)) (metadata : option dict)
    (kwargs : dict) : M unit :=
  try_except
    (on_tool_start_body serialized input_str run_id parent_run_id tags
       metadata kwargs).

Definition on_retriever_start_body (serialized : dict) (query : string)
    (run_id : UUID) (parent_run_id : option UUID)
    (tags : option (list string)) (metadata : option dict)
    (kwargs : dict) : M unit :=
  log_record (LogDebug "on retriever start");;
  require_run parent_run_id "parent run not found";;
  ph ← lookup_run parent_run_id;
  h ← get;
  name ← lift (get_langchain_run_name serialized kwargs);
  o ← client_span (PObs ph)
        {| c_id := next_span_id h;
           c_name := name;
           c_input := VStr query;
           c_metadata := opt_dict (__join_tags_and_metadata tags metadata);
           c_version := opt_str (version h) |};
  set_run run_id o;;
  modify (set_next_span_id None).

Definition on_retriever_start (serialized : dict) (query : string)
    (run_id : UUID) (parent_run_id : option UUID)
    (tags : option (list string)) (metadata : option dict)
    (kwargs : dict) : M unit :=
  try_except
    (on_retriever_start_body serialized query run_id parent_run_id tags
       metadata kwargs).

Definition on_retriever_end_body (documents : value) (run_id : UUID)
    (parent_run_id : option UUID) : M unit :=
  log_record (LogDebug "on retriever end");;
  require_run (Some run_id) "run not found";;
  end_run run_id (λ h, end_with_output h documents);;
  _update_trace run_id parent_run_id documents.

Definition on_retriever_end (documents : value) (run_id : UUID)
    (parent_run_id : option UUID) : M unit :=
  try_except
    (on_retriever_end_body documents run_id parent_run_id).

Definition on_tool_end_body (output : string) (run_id : UUID)
    (parent_run_id : option UUID) : M unit :=
  log_record (LogDebug "on tool end");;
  require_run (Some run_id) "run not found";;
  end_run run_id (λ h, end_with_output h (VStr output));;
  _update_trace run_id parent_run_id (VStr output).

Definition on_tool_end (output : string) (run_id : UUID)
    (parent_run_id : option UUID) : M unit :=
  try_except
    (on_tool_end_body output run_id parent_run_id).

Definition on_tool_error_body (error : error_obj) (run_id : UUID)
    (parent_run_id : option UUID) : M unit :=
  log_record (LogDebug "on tool error");;
  require_run (Some run_id) "run not found";;
  end_run run_id (λ h, end_with_error h (VErr error));;
  _update_trace run_id parent_run_id (VErr error).

Definition on_tool_error (error : error_obj) (run_id : UUID)
    (parent_run_id : option UUID) : M unit :=
  try_except
    (on_tool_error_body error run_id parent_run_id).

Definition on_llm_end_body (response : LLMResult) (run_id : UUID)
    (parent_run_id : option UUID) : M unit :=
  log_record (LogDebug "on llm end");;
  require_run (Some run_id) "Run not found, see docs what to do in this case.";;
  last_response ← lift (last_candidate response);
  llm_usage ← lift (llm_usage_of response);
  extracted_response ← lift (_extract_response last_response);
  end_run run_id (λ h,
    {| e_output := Some extracted_response; e_level := None;
       e_status_message := None; e_usage := Some llm_usage;
       e_version := opt_str (version h) |});;
  _update_trace run_id parent_run_id extracted_response.

Definition on_llm_end (response : LLMResult) (run_id : UUID)
    (parent_run_id : option UUID) : M unit :=
  try_except
    (on_llm_end_body response run_id parent_run_id).

Definition on_llm_error_body (error : error_obj) (run_id : UUID)
    (parent_run_id : option UUID) : M unit :=
  log_record (LogDebug "on llm error");;
  end_run run_id (λ h, end_with_error h (VStr (str_error error)));;
  _update_trace run_id parent_run_id (VErr error).

Definition on_llm_error (error : error_obj) (run_id : UUID)
    (parent_run_id : option UUID) : M unit :=
  try_except
    (on_llm_error_body error run_id parent_run_id).

Definition parse_warning : string :=
  "Langfuse was not able to parse the LLM model. The LLM call will be recorded without model name.".

Section ModelName.

(** [langfuse.extract_model._extract_model_name] is outside the sources at
  hand; the methods that call it take it as a parameter.  It returns the
  model name, or [None], or raises. *)
Variable _extract_model_name : dict → dict → res (option string).

Definition _parse_model_and_log_errors (serialized kwargs : dict) : M (option string) :=
try_catch
  (model_name ← lift (_extract_model_name serialized kwargs);
   match model_name with
   | Some s =>
       if decide (s ≠ "") then mret (Some s) else mret None
   | None =>
       log_record (LogWarning parse_warning);;
       _report_error
         {| sdk_log := "unable to parse model name";
            sdk_kwargs := kwargs;
            sdk_serialized := serialized;
            sdk_exception := None |};;
       mret None
   end)
  (λ e,
     log_record (LogException e);;
     log_record (LogWarning parse_warning);;
     _report_error
       {| sdk_log := "unable to parse model name";
          sdk_kwargs := kwargs;
          sdk_serialized := serialized;
          sdk_exception := Some (exn_str e) |};;
     mret None).

Definition __on_llm_action (serialized : dict) (run_id : UUID) (prompts : value)
  (parent_run_id : option UUID)
  (tags : option (list string)) (metadata : option dict)
  (kwargs : dict) : M unit :=
try_except (
  h ← get;
  __generate_trace_and_parent serialized prompts run_id parent_run_id
    tags metadata
    (<["kwargs" := VDict kwargs]> (<["version" := opt_str (version h)]> ∅));;
  model_name ← _parse_model_and_log_errors serialized kwargs;
  name ← lift (get_langchain_run_name serialized kwargs);
  invocation_params ← lift (dict_getitem "invocation_params" kwargs);
  invocation_params ← lift (as_mapping invocation_params);
  h ← get;
  let content :=
    {| c_id := None;
       c_name := name;
       c_input := prompts;
       c_metadata := opt_dict (__join_tags_and_metadata tags metadata);
       c_version := opt_str (version h) |} in
  let generation (p : Parent) : M unit :=
    o ← client_generation p content (opt_str model_name)
          (model_parameters invocation_params);
    set_run run_id o in
  if in_runs parent_run_id h then
    ph ← lookup_run parent_run_id;
    generation (PObs ph)
  else
    match root_span h, parent_run_id with
    | Some rs, None => generation (PObs rs)
    | _, _ =>
        t ← getattr_trace;
        generation (PTrace t)
    end).

(** [__on_llm_action] names its third parameter [prompts]; the messages are
  passed in that position, so a [prompts] among [kwargs] is a duplicate
  argument. *)
Definition on_chat_model_start_body (serialized : dict) (messages : value)
  (run_id : UUID) (parent_run_id : option UUID)
  (tags : option (list string)) (metadata : option dict)
  (kwargs : dict) : M unit :=
log_record (LogDebug "on chat model start");;
match kwargs !! "prompts" with
| Some _ =>
    raise (Exn TypeError "got multiple values for argument 'prompts'")
| None =>
    __on_llm_action serialized run_id messages parent_run_id tags metadata
      kwargs
end.

Definition on_chat_model_start (serialized : dict) (messages : value)
  (run_id : UUID) (parent_run_id : option UUID)
  (tags : option (list string)) (metadata : option dict)
  (kwargs : dict) : M unit :=
try_except
  (on_chat_model_start_body serialized messages run_id parent_run_id tags
     metadata kwargs).

Definition on_llm_start_body (serialized : dict) (prompts : list string)
  (run_id : UUID) (parent_run_id : option UUID)
  (tags : option (list string)) (metadata : option dict)
  (kwargs : dict) : M unit :=
log_record (LogDebug "on llm start");;
__on_llm_action serialized run_id (VList (VStr <$> prompts)) parent_run_id
  tags metadata kwargs.

Definition on_llm_start (serialized : dict) (prompts : list string)
  (run_id : UUID) (parent_run_id : option UUID)
  (tags : option (list string)) (metadata : option dict)
  (kwargs : dict) : M unit :=
try_except
  (on_llm_start_body serialized prompts run_id parent_run_id tags metadata
     kwargs).

End ModelName.

(** ** Construction *)

Inductive StatefulClient : Type :=
  | StatefulTraceClient (t : TraceHandle) (task_manager : list Event)
  | StatefulSpanClient (o : Observation) (task_manager : list Event).

Record InitArgs : Type := {
  a_public_key : option string;
  a_secret_key : option string;
  a_host : option string;
  a_debug : bool;
  a_stateful_client : option StatefulClient;
  a_session_id : option string;
  a_user_id : option string;
  a_trace_name : option string;
  a_release : option string;
  a_version : option string;
  a_threads : option Z;
  a_flush_at : option Z;
  a_flush_interval : option Z;
  a_max_retries : option Z;
  a_timeout : option Z
}.

(** [x if x else y] on optional strings: [None] and the empty string are
    false. *)
Definition or_else (x y : option string) : option string :=
  match x with
  | Some s => if decide (s = "") then y else Some s
  | None => y
  end.

(** [CallbackHandler.__init__], with [os.environ] as a map.  The attributes
    that a branch does not assign keep the class defaults, [None]. *)
Definition __init__ (environ : gmap string string) (a : InitArgs) : res CallbackHandler :=
  let prioritized_public_key :=
    or_else (a_public_key a) (environ !! "LANGFUSE_PUBLIC_KEY") in
  let prioritized_secret_key :=
    or_else (a_secret_key a) (environ !! "LANGFUSE_SECRET_KEY") in
  let prioritized_host :=
    default (default "https://cloud.langfuse.com" (environ !! "LANGFUSE_HOST"))
      (or_else (a_host a) None) in
  match a_stateful_client a with
  | Some (StatefulTraceClient t tm) =>
      Ok {| next_span_id := None; trace := Some t; root_span := None;
            langfuse := None; version := a_version a; session_id := None;
            user_id := None; trace_name := None; runs := ∅;
            _task_manager := tm; log := []; uuid_drawn := 0 |}
  | Some (StatefulSpanClient o tm) =>
      Ok {| next_span_id := None;
            trace := Some {| t_id := o_trace_id o; t_name := VNone;
                             t_metadata := VNone; t_session_id := VNone;
                             t_user_id := VNone; t_input := VNone;
                             t_output := VNone; t_version := VNone |};
            root_span := Some (SpanHandle o);
            langfuse := None; version := a_version a; session_id := None;
            user_id := None; trace_name := None;
            runs := {[ ClientId (o_id o) := SpanHandle o ]};
            _task_manager := tm; log := []; uuid_drawn := 0 |}
  | None =>
      match or_else prioritized_public_key None,
            or_else prioritized_secret_key None with
      | Some pk, Some sk =>
          Ok {| next_span_id := None; trace := None; root_span := None;
                langfuse := Some {| lf_public_key := pk; lf_secret_key := sk;
                                    lf_host := prioritized_host;
                                    lf_debug := a_debug a;
                                    lf_release := a_release a;
                                    lf_threads := a_threads a;
                                    lf_flush_at := a_flush_at a;
                                    lf_flush_interval := a_flush_interval a;
                                    lf_max_retries := a_max_retries a;
                                    lf_timeout := a_timeout a;
                                    lf_sdk_integration := "langchain" |};
                version := a_version a; session_id := a_session_id a;
                user_id := a_user_id a; trace_name := a_trace_name a;
                runs := ∅; _task_manager := []; log := []; uuid_drawn := 0 |}
      | _, _ =>
          Raise (Exn ValueError
            "Either provide a stateful langfuse object or both public_key and secret_key.")
      end
  end.

(** ** Notifications *)

(** The arguments shared by the start notifications. *)
Record StartArgs : Type := {
  s_serialized : dict;
  s_run_id : UUID;
  s_parent_run_id : option UUID;
  s_tags : option (list string);
  s_metadata : option dict;
  s_kwargs : dict
}.

(** One call of a notification method by the orchestration engine. *)
Inductive Notification : Type :=
  | OnChainStart (a : StartArgs) (inputs : value)
  | OnChainEnd (outputs : value) (run_id : UUID) (parent_run_id : option UUID)
  | OnChainError (error : error_obj) (run_id : UUID) (parent_run_id : option UUID)
  | OnLlmStart (a : StartArgs) (prompts : list string)
  | OnChatModelStart (a : StartArgs) (messages : value)
  | OnLlmEnd (response : LLMResult) (run_id : UUID) (parent_run_id : option UUID)
  | OnLlmError (error : error_obj) (run_id : UUID) (parent_run_id : option UUID)
  | OnToolStart (a : StartArgs) (input_str : string)
  | OnToolEnd (output : string) (run_id : UUID) (parent_run_id : option UUID)
  | OnToolError (error : error_obj) (run_id : UUID) (parent_run_id : option UUID)
  | OnRetrieverStart (a : StartArgs) (query : string)
  | OnRetrieverEnd (documents : value) (run_id : UUID) (parent_run_id : option UUID)
  | OnRetrieverError (error : error_obj) (run_id : UUID) (parent_run_id : option UUID)
  | OnAgentAction (action : value) (run_id : UUID) (parent_run_id : option UUID)
  | OnAgentFinish (finish : value) (run_id : UUID) (parent_run_id : option UUID).

Definition notify (extract : dict → dict → res (option string))
    (n : Notification) : M unit :=
  match n with
  | OnChainStart a inputs =>
      on_chain_start (s_serialized a) inputs (s_run_id a) (s_parent_run_id a)
        (s_tags a) (s_metadata a) (s_kwargs a)
  | OnChainEnd outputs r p => on_chain_end outputs r p
  | OnChainError e r p => on_chain_error e r p
  | OnLlmStart a prompts =>
      on_llm_start extract (s_serialized a) prompts (s_run_id a)
        (s_parent_run_id a) (s_tags a) (s_metadata a) (s_kwargs a)
  | OnChatModelStart a messages =>
      on_chat_model_start extract (s_serialized a) messages (s_run_id a)
        (s_parent_run_id a) (s_tags a) (s_metadata a) (s_kwargs a)
  | OnLlmEnd response r p => on_llm_end response r p
  | OnLlmError e r p => on_llm_error e r p
  | OnToolStart a input_str =>
      on_tool_start (s_serialized a) input_str (s_run_id a) (s_parent_run_id a)
        (s_tags a) (s_metadata a) (s_kwargs a)
  | OnToolEnd output r p => on_tool_end output r p
  | OnToolError e r p => on_tool_error e r p
  | OnRetrieverStart a query =>
      on_retriever_start (s_serialized a) query (s_run_id a) (s_parent_run_id a)
        (s_tags a) (s_metadata a) (s_kwargs a)
  | OnRetrieverEnd documents r p => on_retriever_end documents r p
  | OnRetrieverError e r p => on_retriever_error e r p
  | OnAgentAction action r p => on_agent_action action r p
  | OnAgentFinish finish r p => on_agent_finish finish r p
  end.

Definition run_id_of (n : Notification) : UUID :=
  match n with
  | OnChainStart a _ | OnLlmStart a _ | OnChatModelStart a _
  | OnToolStart a _ | OnRetrieverStart a _ => s_run_id a
  | OnChainEnd _ r _ | OnChainError _ r _ | OnLlmEnd _ r _ | OnLlmError _ r _
  | OnToolEnd _ r _ | OnToolError _ r _ | OnRetrieverEnd _ r _
  | OnRetrieverError _ r _ | OnAgentAction _ r _ | OnAgentFinish _ r _ => r
  end.

Definition parent_run_id_of (n : Notification) : option UUID :=
  match n with
  | OnChainStart a _ | OnLlmStart a _ | OnChatModelStart a _
  | OnToolStart a _ | OnRetrieverStart a _ => s_parent_run_id a
  | OnChainEnd _ _ p | OnChainError _ _ p | OnLlmEnd _ _ p | OnLlmError _ _ p
  | OnToolEnd _ _ p | OnToolError _ _ p | OnRetrieverEnd _ _ p
  | OnRetrieverError _ _ p | OnAgentAction _ _ p | OnAgentFinish _ _ p => p
  end.

(** The statements under [try] of the method that a notification calls. *)
Definition method_body (extract : dict → dict → res (option string))
    (n : Notification) : M unit :=
  match n with
  | OnChainStart a inputs =>
      on_chain_start_body (s_serialized a) inputs (s_run_id a)
        (s_parent_run_id a) (s_tags a) (s_metadata a) (s_kwargs a)
  | OnChainEnd outputs r p => on_chain_end_body outputs r p
  | OnChainError e r p => on_chain_error_body e r p
  | OnLlmStart a prompts =>
      on_llm_start_body extract (s_serialized a) prompts (s_run_id a)
        (s_parent_run_id a) (s_tags a) (s_metadata a) (s_kwargs a)
  | OnChatModelStart a messages =>
      on_chat_model_start_body extract (s_serialized a) messages (s_run_id a)
        (s_parent_run_id a) (s_tags a) (s_metadata a) (s_kwargs a)
  | OnLlmEnd response r p => on_llm_end_body response r p
  | OnLlmError e r p => on_llm_error_body e r p
  | OnToolStart a input_str =>
      on_tool_start_body (s_serialized a) input_str (s_run_id a)
        (s_parent_run_id a) (s_tags a) (s_metadata a) (s_kwargs a)
  | OnToolEnd output r p => on_tool_end_body output r p
  | OnToolError e r p => on_tool_error_body e r p
  | OnRetrieverStart a query =>
      on_retriever_start_body (s_serialized a) query (s_run_id a)
        (s_parent_run_id a) (s_tags a) (s_metadata a) (s_kwargs a)
  | OnRetrieverEnd documents r p => on_retriever_end_body documents r p
  | OnRetrieverError e r p => on_retriever_error_body e r p
  | OnAgentAction action r p => on_agent_action_body action r p
  | OnAgentFinish finish r p => on_agent_finish_body finish r p
  end.

(** ** Vocabulary of the properties *)

(** The handler after a notification, and what the call gave back to the
    orchestration engine. *)
Definition after (extract : dict → dict → res (option string))
    (n : Notification) (h : CallbackHandler) : CallbackHandler :=
  (notify extract n h).1.

Definition outcome (extract : dict → dict → res (option string))
    (n : Notification) (h : CallbackHandler) : res unit :=
  (notify extract n h).2.

Definition start_args_of (n : Notification) : option StartArgs :=
  match n with
  | OnChainStart a _ | OnLlmStart a _ | OnChatModelStart a _
  | OnToolStart a _ | OnRetrieverStart a _ => Some a
  | _ => None
  end.

Definition is_start (n : Notification) : bool :=
  match start_args_of n with Some _ => true | None => false end.

(** [on_chain_end], [on_tool_end], [on_retriever_end], [on_llm_end],
    [on_agent_finish] *)
Definition is_end (n : Notification) : bool :=
  match n with
  | OnChainEnd _ _ _ | OnToolEnd _ _ _ | OnRetrieverEnd _ _ _
  | OnLlmEnd _ _ _ | OnAgentFinish _ _ _ => true
  | _ => false
  end.

(** [on_chain_error], [on_tool_error], [on_retriever_error], [on_llm_error] *)
Definition error_of (n : Notification) : option error_obj :=
  match n with
  | OnChainError e _ _ | OnToolError e _ _ | OnRetrieverError e _ _
  | OnLlmError e _ _ => Some e
  | _ => None
  end.

(** The end and error notifications of chains, tools, retrievers and model
    calls. *)
Definition is_end_or_error (n : Notification) : bool :=
  match n with
  | OnChainEnd _ _ _ | OnToolEnd _ _ _ | OnRetrieverEnd _ _ _ | OnLlmEnd _ _ _ => true
  | _ => match error_of n with Some _ => true | None => false end
  end.

(** The output that an end notification carries.  For [on_llm_end] it is
    what the response yields: the usage entry is read and the output is
    extracted from the last candidate; there is none when either fails. *)
Definition end_output (n : Notification) : option value :=
  match n with
  | OnChainEnd v _ _ | OnRetrieverEnd v _ _ | OnAgentFinish v _ _ => Some v
  | OnToolEnd s _ _ => Some (VStr s)
  | OnLlmEnd response _ _ =>
      match last_candidate response, llm_usage_of response with
      | inr c, inr _ =>
          match _extract_response c with
          | inr v => Some v
          | inl _ => None
          end
      | _, _ => None
      end
  | _ => None
  end.

Definition is_ok {A} (r : res A) : Prop :=
  match r with inr _ => True | inl _ => False end.

(** No keyword argument is passed twice by the method: [on_chain_start]
    adds [version], and [on_chat_model_start] fills [prompts]. *)
Definition passes_keywords (n : Notification) : Prop :=
  match n with
  | OnChainStart a _ => s_kwargs a !! "version" = None
  | OnChatModelStart a _ => s_kwargs a !! "prompts" = None
  | _ => True
  end.

(** A start notification of a chain or of a model call whose descriptor and
    keyword arguments can be processed: no keyword is passed twice, the
    name resolves, and a model call carries a mapping of invocation
    parameters. *)
Definition start_resolves (n : Notification) : Prop :=
  passes_keywords n
  ∧ match n with
    | OnChainStart a _ =>
        is_ok (subscript_last (dict_get "id" unknown_id (s_serialized a)))
        ∧ is_ok (get_langchain_run_name (s_serialized a) (s_kwargs a))
    | OnLlmStart a _ | OnChatModelStart a _ =>
        is_ok (get_langchain_run_name (s_serialized a) ∅)
        ∧ ∃ ip, s_kwargs a !! "invocation_params" = Some (VDict ip)
    | _ => False
    end.

(** The events of a given type in the queue. *)
Definition events_of_type (ty : string) (h : CallbackHandler) : list Event :=
  filter (λ ev, ev_type ev = ty) (_task_manager h).

(** How many traces have been created so far. *)
Definition traces_created (h : CallbackHandler) : nat :=
  length (events_of_type "trace-create" h).

(** The last record written to the logger is an exception. *)
Definition logged_failure (h : CallbackHandler) : Prop :=
  ∃ e, last (log h) = Some (LogException e).

(** ** Sample data *)

(** Modelled from the spec: [langfuse/extract_model.py] is missing; the
    ModelInfoExtractor of section 4.3 derives the model name from the
    descriptor and the invocation parameters, and may yield none or fail.
    This instance reads the [model_name] invocation parameter; it serves to
    run the handler on the concrete inputs below. *)
Definition sample_extract_model_name (serialized kwargs : dict) : res (option string) :=
  match kwargs !! "invocation_params" with
  | Some (VDict ip) =>
      match ip !! "model_name" with
      | Some (VStr s) => Ok (Some s)
      | _ => Ok None
      end
  | Some _ => Raise (Exn AttributeError "object has no attribute 'get'")
  | None => Raise (Exn KeyError "invocation_params")
  end.

Definition sample_args : InitArgs :=
  {| a_public_key := Some "pk-lf-1"; a_secret_key := Some "sk-lf-1";
     a_host := None; a_debug := false; a_stateful_client := None;
     a_session_id := Some "session-1"; a_user_id := None;
     a_trace_name := None; a_release := None; a_version := Some "1.0";
     a_threads := None; a_flush_at := None; a_flush_interval := None;
     a_max_retries := None; a_timeout := None |}.

(** The handler that [__init__] builds from [sample_args] with an empty
    environment. *)
Definition fresh_handler : CallbackHandler :=
  {| next_span_id := None; trace := None; root_span := None;
     langfuse := Some {| lf_public_key := "pk-lf-1"; lf_secret_key := "sk-lf-1";
                         lf_host := "https://cloud.langfuse.com";
                         lf_debug := false; lf_release := None;
                         lf_threads := None; lf_flush_at := None;
                         lf_flush_interval := None; lf_max_retries := None;
                         lf_timeout := None;
                         lf_sdk_integration := "langchain" |};
     version := Some "1.0"; session_id := Some "session-1"; user_id := None;
     trace_name := None; runs := ∅; _task_manager := []; log := [];
     uuid_drawn := 0 |}.

Definition sample_trace : TraceHandle :=
  {| t_id := Given "trace-7"; t_name := VStr "manual"; t_metadata := VNone;
     t_session_id := VNone; t_user_id := VNone; t_input := VNone;
     t_output := VNone; t_version := VNone |}.

(** The handler that [__init__] builds around [sample_trace]. *)
Definition stateful_handler : CallbackHandler :=
  {| next_span_id := None; trace := Some sample_trace; root_span := None;
     langfuse := None; version := None; session_id := None; user_id := None;
     trace_name := None; runs := ∅; _task_manager := []; log := [];
     uuid_drawn := 0 |}.

Definition run_a : UUID := "0a0a0a0a-0000-4000-8000-00000000000a".
Definition run_b : UUID := "0b0b0b0b-0000-4000-8000-00000000000b".
Definition run_c : UUID := "0c0c0c0c-0000-4000-8000-00000000000c".

Definition chain_descriptor : dict :=
  {[ "id" := VList [VStr "langchain"; VStr "chains"; VStr "LLMChain"] ]}.

Definition llm_descriptor : dict :=
  {[ "id" := VList [VStr "langchain"; VStr "llms"; VStr "OpenAI"] ]}.

Definition sample_invocation_params : dict :=
  <["temperature" := VNum (7 # 10)]> (<["max_tokens" := VNone]> ∅).

Definition llm_kwargs : dict :=
  {[ "invocation_params" := VDict sample_invocation_params ]}.

Definition start_args (serialized : dict) (run_id : UUID)
    (parent_run_id : option UUID) (kwargs : dict) : StartArgs :=
  {| s_serialized := serialized; s_run_id := run_id;
     s_parent_run_id := parent_run_id; s_tags := None; s_metadata := None;
     s_kwargs := kwargs |}.

(** [fresh_handler] after the root chain [run_a] has started. *)
Definition chain_started : CallbackHandler :=
  after sample_extract_model_name
    (OnChainStart (start_args chain_descriptor run_a None ∅) (VStr "question"))
    fresh_handler.

Definition text_candidate (t : string) : Candidate :=
  {| cand_text := Some t; cand_additional_kwargs := None |}.


(** The diagnostic context that [_parse_model_and_log_errors] reports for
    an outcome of the model-name extraction; there is none when a name was
    returned. *)
Definition diagnostic_of (serialized kwargs : dict)
    (r : res (option string)) : option SdkLog :=
  match r with
  | inl e =>
      Some {| sdk_log := "unable to parse model name"; sdk_kwargs := kwargs;
              sdk_serialized := serialized;
              sdk_exception := Some (exn_str e) |}
  | inr None =>
      Some {| sdk_log := "unable to parse model name"; sdk_kwargs := kwargs;
              sdk_serialized := serialized; sdk_exception := None |}
  | inr (Some _) => None
  end.

Definition sdk_log_event (i : ident) (d : SdkLog) : Event :=
  {| ev_id := i; ev_type := "sdk-log"; ev_body := BSdkLog d |}.

(** The queue of [h'] is the queue of [h] with the events [evs] added. *)
Definition enqueued (h h' : CallbackHandler) (evs : list Event) : Prop :=
  _task_manager h' = _task_manager h ++ evs.




(** [on_chain_start], [on_tool_start], [on_retriever_start]: the start
    notifications that create a span. *)
Definition is_span_start (n : Notification) : bool :=
  match n with
  | OnChainStart _ _ | OnToolStart _ _ | OnRetrieverStart _ _ => true
  | _ => false
  end.

(** [on_llm_start], [on_chat_model_start]: the start notifications that
    create a generation. *)
Definition is_generation_start (n : Notification) : bool :=
  match n with
  | OnLlmStart _ _ | OnChatModelStart _ _ => true
  | _ => false
  end.

(** [on_tool_start], [on_retriever_start] *)
Definition is_leaf_start (n : Notification) : bool :=
  match n with
  | OnToolStart _ _ | OnRetrieverStart _ _ => true
  | _ => false
  end.

(** The status message that the method of an error notification passes
    to [end]. *)
Definition status_message_passed (n : Notification) : option value :=
  match n with
  | OnChainError e _ _ | OnRetrieverError e _ _ | OnLlmError e _ _ =>
      Some (VStr (str_error e))
  | OnToolError e _ _ => Some (VErr e)
  | _ => None
  end.

(** More sample data: notifications and the handlers they lead to. *)

Definition named_llm_kwargs : dict :=
  {[ "invocation_params" :=
       VDict (<["model_name" := VStr "gpt-4"]> sample_invocation_params) ]}.

Definition root_chain_start : Notification :=
  OnChainStart (start_args chain_descriptor run_a None ∅) (VStr "question").

Definition second_chain_start : Notification :=
  OnChainStart (start_args chain_descriptor run_b None ∅) (VStr "again").

Definition root_chain_end : Notification :=
  OnChainEnd (VStr "answer") run_a None.

(** A tool started under the chain [run_a]. *)
Definition tool_start : Notification :=
  OnToolStart
    {| s_serialized := {[ "id" := VList [VStr "tools"; VStr "Search"] ]};
       s_run_id := run_b; s_parent_run_id := Some run_a;
       s_tags := Some ["search"]; s_metadata := None; s_kwargs := ∅ |}
    "query".

Definition tool_started : CallbackHandler :=
  after sample_extract_model_name tool_start chain_started.

(** A tool and a model call that name a parent nobody registered, and a
    tool that has no parent. *)
Definition orphan_tool_start : Notification :=
  OnToolStart (start_args chain_descriptor run_b (Some run_c) ∅) "query".

Definition orphan_llm_start : Notification :=
  OnLlmStart (start_args llm_descriptor run_b (Some run_c) named_llm_kwargs)
    ["prompt"].


(** A model call under the chain [run_a], whose keyword arguments name no
    model. *)
Definition llm_start : Notification :=
  OnLlmStart (start_args llm_descriptor run_b (Some run_a) llm_kwargs)
    ["prompt"].





Definition usageless_response : LLMResult :=
  {| generations := [[text_candidate "hi"]]; llm_output := Some ∅ |}.

Definition sample_error : error_obj :=
  ErrException (Exn ValueError "boom").

(** The handler has something to hang observations on: a client that
    creates traces, or a trace. *)
Definition anchored (h : CallbackHandler) : Prop :=
  is_Some (langfuse h) ∨ is_Some (trace h).

(** The handler after a sequence of notifications. *)
Definition after_all (extract : dict → dict → res (option string))
    (ns : list Notification) (h : CallbackHandler) : CallbackHandler :=
  foldl (λ h n, after extract n h) h ns.

(** ** Further methods and vocabulary *)

(** [CallbackHandler.get_trace_id]: [return self.trace.id], outside any
    [try]. *)
Definition get_trace_id : M ident :=
  t ← getattr_trace;
  mret (t_id t).

(** An optional string that Python takes as true: present and not empty. *)
Definition truthy (o : option string) : bool :=
  match o with
  | Some s => bool_decide (s ≠ "")
  | None => false
  end.

(** The attributes that [__init__] assigns and no method is meant to
    change. *)
Definition attributes_kept (h h' : CallbackHandler) : Prop :=
  langfuse h' = langfuse h ∧ root_span h' = root_span h
  ∧ version h' = version h ∧ session_id h' = session_id h
  ∧ user_id h' = user_id h ∧ trace_name h' = trace_name h.

(** The event queue and the logger only receive: what [h] held is a prefix
    of what [h'] holds, and no identifier is drawn twice. *)
Definition append_only (h h' : CallbackHandler) : Prop :=
  (∃ evs, _task_manager h' = _task_manager h ++ evs)
  ∧ (∃ recs, log h' = log h ++ recs)
  ∧ (uuid_drawn h ≤ uuid_drawn h')%nat.

(** A computation relates every handler to the handler it leaves. *)
Definition preserves (R : relation CallbackHandler) {A} (m : M A) : Prop :=
  ∀ h, R h (m h).1.

(** Runs are registered only while a trace is held. *)
Definition registry_anchored (h : CallbackHandler) : Prop :=
  trace h = None → runs h = ∅ ∧ root_span h = None.

(** The metadata that a tool or a retriever start passes to [span]: for a
    tool, the joined tags and metadata updated with the keyword arguments
    that are not [None], which needs the join to be a mapping; for a
    retriever, the join as it is. *)
Definition leaf_metadata (n : Notification) : option value :=
  match n with
  | OnToolStart a _ =>
      match __join_tags_and_metadata (s_tags a) (s_metadata a) with
      | Some m =>
          Some (VDict (dict_update m
                         (filter (λ kv, is_none kv.2 = false) (s_kwargs a))))
      | None => None
      end
  | OnRetrieverStart a _ =>
      Some (opt_dict (__join_tags_and_metadata (s_tags a) (s_metadata a)))
  | _ => None
  end.

(** ** The REST client of traces: [langfuse/api/resources/trace/client.py] *)

Module TraceClient.

(** What the methods read of the HTTP response: [status_code], the result
    of [json()], absent when the body does not decode and [json()] raises
    [JSONDecodeError], and [text]. *)
Record Response : Type := {
  status_code : Z;
  json : option value;
  text : string
}.

(** The exceptions that leave the methods.  [ValidationError] is what
    [pydantic.parse_obj_as] raises on a body of the wrong shape. *)
Inductive failure : Type :=
  | Error (body : value)
  | UnauthorizedError (body : value)
  | AccessDeniedError (body : value)
  | MethodNotAllowedError (body : value)
  | NotFoundError (body : value)
  | ApiError (status : Z) (body : value)
  | JSONDecodeError
  | ValidationError.

(** The status codes that have an exception class of their own, and the
    class of each. *)
Definition mapped_status : list Z := [400; 401; 403; 404; 405]%Z.

Definition typed_errors : list (Z * (value → failure)) :=
  [(400, Error); (401, UnauthorizedError); (403, AccessDeniedError);
   (404, NotFoundError); (405, MethodNotAllowedError)]%Z.

Section Handling.

(** [pydantic.parse_obj_as(T, ...)] for the result type [T] of a method;
    the types [TraceWithFullDetails] and [Traces] are outside the sources at
    hand.  [parse_obj_as(typing.Any, x)] is [x]. *)
Context {T : Type} (parse_obj_as : value → option T).

(** [_response.json()] *)
Definition response_json (r : Response) : failure + value :=
  match json r with
  | Some v => inr v
  | None => inl JSONDecodeError
  end.

(** [raise E(pydantic.parse_obj_as(typing.Any, _response.json()))] *)
Definition raise_decoded (E : value → failure) (r : Response) : failure + T :=
  match response_json r with
  | inr v => inl (E v)
  | inl e => inl e
  end.

(** The statements that follow the request, the same in [get] and in
    [list]. *)
Definition handle_response (r : Response) : failure + T :=
  if bool_decide (200 ≤ status_code r < 300)%Z then
    match response_json r with
    | inr v =>
        match parse_obj_as v with
        | Some t => inr t
        | None => inl ValidationError
        end
    | inl e => inl e
    end
  else if bool_decide (status_code r = 400%Z) then raise_decoded Error r
  else if bool_decide (status_code r = 401%Z) then
    raise_decoded UnauthorizedError r
  else if bool_decide (status_code r = 403%Z) then
    raise_decoded AccessDeniedError r
  else if bool_decide (status_code r = 405%Z) then
    raise_decoded MethodNotAllowedError r
  else if bool_decide (status_code r = 404%Z) then
    raise_decoded NotFoundError r
  else
    match json r with
    | Some v => inl (ApiError (status_code r) v)
    | None => inl (ApiError (status_code r) (VStr (text r)))
    end.

(** [TraceClient.get] and [TraceClient.list], from the response that the
    transport returns for their request. *)
Definition get (trace_id : string) (_response : Response) : failure + T :=
  handle_response _response.

Definition list (page limit : option Z) (user_id name : option string)
    (order_by : string) (tags : option value)
    (_response : Response) : failure + T :=
  handle_response _response.

End Handling.

End TraceClient.

(** ** Relations between the handler before and after a computation *)

(** The attribute read by [f] has in [h'] the value it has in [h]. *)
Definition kept {A} (f : CallbackHandler → A) : relation CallbackHandler :=
  λ h h', f h' = f h.

(** Every entry of the registry other than the one of [run_id] is in [h']
    what it is in [h]. *)
Definition others_kept (run_id : UUID) : relation CallbackHandler :=
  λ h h', ∀ k, k ≠ RunId run_id → runs h' !! k = runs h !! k.

(** The registry of [h'] has the keys of the registry of [h]. *)
Definition same_keys : relation CallbackHandler :=
  λ h h', ∀ k, is_Some (runs h' !! k) ↔ is_Some (runs h !! k).

(** Running [m] from [h] leaves a handler and an outcome that satisfy
    [Q]. *)
Definition wp {A} (m : M A) (Q : CallbackHandler → res A → Prop)
    (h : CallbackHandler) : Prop :=
  Q (m h).1 (m h).2.

(** In a handler built around a supplied trace or span, the identifier of
    the trace and the number of traces created are those of [h]. *)
Definition stateful_kept : relation CallbackHandler :=
  λ h h', langfuse h = None →
    langfuse h' = None
    ∧ t_id <$> trace h' = t_id <$> trace h
    ∧ traces_created h' = traces_created h.

(** The input that a start notification records. *)
Definition start_input (n : Notification) : option value :=
  match n with
  | OnChainStart _ inputs => Some inputs
  | OnLlmStart _ prompts => Some (VList (VStr <$> prompts))
  | OnChatModelStart _ messages => Some messages
  | OnToolStart _ s | OnRetrieverStart _ s => Some (VStr s)
  | _ => None
  end.

(** The identifier that [span(id=self.next_span_id, ...)] gives the record
    it creates from [h]: the one set by [setNextSpan], or a new one. *)
Definition span_id_from (h : CallbackHandler) : ident :=
  match next_span_id h with
  | Some s => Given s
  | None => Fresh (uuid_drawn h)
  end.

(** The trace that a supplied client belongs to: [stateful_client] itself
    for a trace client, [stateful_client.trace_id] for a span client. *)
Definition client_trace_id (c : StatefulClient) : ident :=
  match c with
  | StatefulTraceClient t _ => t_id t
  | StatefulSpanClient o _ => o_trace_id o
  end.

(** The arguments that build [stateful_handler] around [sample_trace];
    the session given with them is not kept. *)
Definition stateful_args : InitArgs :=
  {| a_public_key := None; a_secret_key := None; a_host := None;
     a_debug := false;
     a_stateful_client := Some (StatefulTraceClient sample_trace []);
     a_session_id := Some "session-1"; a_user_id := None;
     a_trace_name := None; a_release := None; a_version := None;
     a_threads := None; a_flush_at := None; a_flush_interval := None;
     a_max_retries := None; a_timeout := None |}.

(** * Properties *)

Ltac hsimpl :=
  cbn [fst snd next_span_id trace root_span langfuse version session_id
       user_id trace_name runs _task_manager log uuid_drawn
       set_next_span_id set_trace set_runs set_task_manager set_log
       set_uuid_drawn c_id] in *.

(** Runs the monadic plumbing of a method body, leaving the tests on the
    handler and on the arguments in place. *)
Ltac mred :=
  cbv beta iota zeta delta
    [try_except try_catch log_record modify require_run end_run
     lookup_run getattr_trace in_runs set_run _update_trace
     client_end client_span client_generation client_trace
     client_trace_update add_task uuid4 pick_id _report_error
     get raise lift mbind M_bind mret M_ret];
  hsimpl.

(** Alternates [mred] with rewriting by the equations at hand. *)
Ltac mrun :=
  repeat (progress
    (mred;
     repeat match goal with
            | H : ?x = _ |- context [?x] => rewrite H
            end)).

(** ** Strings *)





(** ** Name resolution *)

Lemma get_langchain_run_name_other_kwarg serialized kwargs k v :
  k ≠ "name" →
  get_langchain_run_name serialized (<[k := v]> kwargs)
  = get_langchain_run_name serialized kwargs.
Proof.
  intros Hk. unfold get_langchain_run_name. by rewrite lookup_insert_ne.
Qed.

Lemma get_langchain_run_name_override serialized kwargs v :
  kwargs !! "name" = Some v → v ≠ VNone →
  get_langchain_run_name serialized kwargs = inr v.
Proof.
  intros Hk Hv. unfold get_langchain_run_name. rewrite Hk. by destruct v.
Qed.

Lemma get_langchain_run_name_no_override serialized kwargs :
  kwargs !! "name" = None ∨ kwargs !! "name" = Some VNone →
  get_langchain_run_name serialized kwargs
  = get_langchain_run_name serialized ∅.
Proof.
  unfold get_langchain_run_name. rewrite lookup_empty. by intros [-> | ->].
Qed.

Lemma get_langchain_run_name_fallback_ok serialized kwargs :
  is_ok (get_langchain_run_name serialized ∅) →
  is_ok (get_langchain_run_name serialized kwargs).
Proof.
  unfold get_langchain_run_name. rewrite lookup_empty. intros H.
  destruct (kwargs !! "name") as [v|]; [|done]. by destruct v.
Qed.

Lemma get_langchain_run_name_from_id serialized kwargs l x :
  kwargs !! "name" = None → serialized !! "name" = None →
  serialized !! "id" = Some (VList l) → last l = Some x →
  get_langchain_run_name serialized kwargs = inr x.
Proof.
  intros Hk Hn Hi Hl. unfold get_langchain_run_name, dict_get.
  rewrite Hk, Hn, Hi. simpl. by rewrite Hl.
Qed.

Lemma get_langchain_run_name_unknown serialized kwargs :
  kwargs !! "name" = None → serialized !! "name" = None →
  serialized !! "id" = None →
  get_langchain_run_name serialized kwargs = inr (VStr "<unknown>").
Proof.
  intros Hk Hn Hi. unfold get_langchain_run_name, dict_get.
  by rewrite Hk, Hn, Hi.
Qed.

Lemma get_langchain_run_name_named serialized kwargs s :
  kwargs !! "name" = None → serialized !! "name" = Some (VStr s) →
  get_langchain_run_name serialized kwargs
  = match str_last s with
    | Some c => inr (VStr c)
    | None => inl (Exn IndexError "string index out of range")
    end.
Proof.
  intros Hk Hn. unfold get_langchain_run_name, dict_get.
  by rewrite Hk, Hn.
Qed.

(** C6: what name resolution does with a descriptor that has a [name]
    field and no override: the subscript [-1] is applied to the name
    itself, so the result is the last character of the name and not the
    name. *)
Theorem get_langchain_run_name_indexes_name :
  let serialized := <["name" := VStr "RetrievalQA"]> chain_descriptor in
  serialized !! "name" = Some (VStr "RetrievalQA")
  ∧ get_langchain_run_name serialized ∅ = inr (VStr "A").
Proof. vm_compute. by split. Qed.

Lemma is_ok_inv {A} (r : res A) : is_ok r → ∃ a, r = inr a.
Proof. destruct r; [done | eauto]. Qed.

(** ** Metadata *)

(** C7: [__join_tags_and_metadata] returns [None] when both arguments are
    absent; with a non-empty tag list, the mapping [{"tags": tags}]
    overlaid with the entries of [metadata], whose values win; and
    [metadata] itself when the tags are absent or empty. *)
Theorem join_tags_and_metadata_spec :
  __join_tags_and_metadata None None = None
  ∧ (∀ t ts metadata,
       ∃ d, __join_tags_and_metadata (Some (t :: ts)) metadata = Some d
            ∧ ∀ k, d !! k =
                   match metadata ≫= (.!! k) with
                   | Some v => Some v
                   | None => ({[ "tags" := tags_value (t :: ts) ]} : dict) !! k
                   end)
  ∧ (∀ metadata,
       __join_tags_and_metadata None metadata = metadata
       ∧ __join_tags_and_metadata (Some []) metadata = metadata)
  ∧ __join_tags_and_metadata (Some ["a"; "b"]) (Some {[ "k" := VStr "v" ]})
    = Some (<["tags" := VList [VStr "a"; VStr "b"]]> {[ "k" := VStr "v" ]})
  ∧ __join_tags_and_metadata (Some []) (Some {[ "k" := VStr "v" ]})
    = Some {[ "k" := VStr "v" ]}.
Proof.
  split; [done|]. split; [|split; [|split]].
  - intros t ts [m|]; eexists; (split; [reflexivity|]); intros k;
      cbn [mbind option_bind].
    + unfold dict_update. rewrite lookup_union.
      by destruct (m !! k), (_ !! k).
    + done.
  - by intros [m|].
  - vm_compute. reflexivity.
  - done.
Qed.

(** ** Model parameters *)





(** ** The exception boundary *)

Lemma try_except_returns body h : (try_except body h).2 = inr ().
Proof.
  unfold try_except, try_catch, log_record, modify.
  by destruct (body h) as [h' [e|[]]].
Qed.

Lemma try_except_raised body h h' e :
  body h = (h', inl e) →
  try_except body h = (set_log (log h' ++ [LogException e]) h', inr ()).
Proof. intros Hb. unfold try_except, try_catch. by rewrite Hb. Qed.


Lemma notify_try_except extract n :
  notify extract n = try_except (method_body extract n).
Proof. by destruct n. Qed.

Lemma enqueued_refl h : enqueued h h [].
Proof. unfold enqueued. by rewrite app_nil_r. Qed.

Lemma enqueued_trans h1 h2 h3 evs evs' :
  enqueued h1 h2 evs → enqueued h2 h3 evs' → enqueued h1 h3 (evs ++ evs').
Proof. unfold enqueued. intros H1 ->. by rewrite H1, app_assoc. Qed.

(** Closes a goal [enqueued h h' ?evs] once both queues are explicit. *)
Ltac solve_enqueued :=
  unfold enqueued; hsimpl; rewrite <- ?app_assoc;
  first [reflexivity | symmetry; apply app_nil_r].

(** ** [__generate_trace_and_parent] *)

Section Generate.
Variables (serialized : dict) (inputs : value) (run_id : UUID)
  (parent_run_id : option UUID) (tags : option (list string))
  (metadata : option dict) (kwargs : dict).

#[local] Abbreviation generate :=
  (__generate_trace_and_parent serialized inputs run_id parent_run_id
    tags metadata kwargs).

Lemma generate_returns h : (generate h).2 = inr ().
Proof. apply try_except_returns. Qed.

Lemma generate_enqueued h : ∃ evs, enqueued h (generate h).1 evs.
Proof.
  unfold __generate_trace_and_parent. mred.
  destruct (get_langchain_run_name serialized kwargs) as [e|cn];
    [eexists; solve_enqueued|].
  destruct (trace h) as [t|] eqn:Ht, parent_run_id as [p|],
    (langfuse h) as [lf|] eqn:Hlf; mrun;
    try (eexists; solve_enqueued).
  all: destruct (runs h !! RunId p), (next_span_id h); mrun;
    eexists; solve_enqueued.
Qed.

(** The attributes fixed at construction are never assigned. *)
Lemma generate_frame h :
  langfuse (generate h).1 = langfuse h
  ∧ root_span (generate h).1 = root_span h
  ∧ version (generate h).1 = version h.
Proof.
  unfold __generate_trace_and_parent. mred.
  destruct (get_langchain_run_name serialized kwargs) as [e|cn]; [done|].
  destruct (trace h) as [t|] eqn:Ht, parent_run_id as [p|],
    (langfuse h) as [lf|] eqn:Hlf; mrun; try done.
  all: by destruct (runs h !! RunId p), (next_span_id h).
Qed.

(** Without a [Langfuse] client the method changes neither the registry
    nor the trace. *)
Lemma generate_stateful h :
  langfuse h = None →
  runs (generate h).1 = runs h ∧ trace (generate h).1 = trace h.
Proof.
  intros Hlf. unfold __generate_trace_and_parent. mred.
  destruct (get_langchain_run_name serialized kwargs) as [e|cn]; [done|].
  by destruct (trace h) as [t|] eqn:Ht, parent_run_id as [p|]; mrun.
Qed.

(** With a parent that is not registered the registry stays as it is. *)
Lemma generate_unknown_parent h p :
  parent_run_id = Some p → runs h !! RunId p = None →
  runs (generate h).1 = runs h.
Proof using Type*.
  intros Hp Hr. unfold __generate_trace_and_parent. mrun.
  destruct (get_langchain_run_name serialized kwargs) as [e|cn]; [done|].
  by destruct (trace h) as [t|] eqn:Ht, (langfuse h) as [lf|] eqn:Hlf; mrun.
Qed.

(** Once the name resolves, a handler that has a [Langfuse] client or a
    trace holds a trace afterwards. *)
Lemma generate_anchors h :
  is_ok (get_langchain_run_name serialized kwargs) →
  is_Some (langfuse h) ∨ is_Some (trace h) →
  is_Some (trace (generate h).1).
Proof.
  intros [cn Hn]%is_ok_inv Hwf.
  unfold __generate_trace_and_parent. mrun.
  destruct (trace h) as [t|] eqn:Ht, parent_run_id as [p|],
    (langfuse h) as [lf|] eqn:Hlf; mrun; try done.
  - by destruct (runs h !! RunId p), (next_span_id h).
  - by destruct Hwf as [[? [=]]|[? [=]]].
  - by destruct Hwf as [[? [=]]|[? [=]]].
Qed.

(** At a root of a stateless handler, once the name resolves: the old
    trace and registry are discarded when there was a trace, and a trace
    named after the run is created. *)
Lemma generate_root h lf :
  langfuse h = Some lf → parent_run_id = None →
  is_ok (get_langchain_run_name serialized kwargs) →
  let h' := (generate h).1 in
  (∃ t, trace h' = Some t ∧ t_id t = str_uuid run_id ∧ t_output t = VNone)
  ∧ runs h' = match trace h with Some _ => ∅ | None => runs h end
  ∧ log h' = log h
  ∧ ∃ ev, enqueued h h' [ev] ∧ ev_type ev = "trace-create".
Proof using Type*.
  intros Hlf Hp [cn Hn]%is_ok_inv.
  unfold __generate_trace_and_parent. mrun.
  destruct (trace h) as [t|] eqn:Ht; mrun;
    (split; [by eexists|]; split; [done|]; split; [done|]);
    eexists; (split; [solve_enqueued | done]).
Qed.
End Generate.


(** ** Counting the traces that were created *)

Lemma traces_created_enqueued h h' evs :
  enqueued h h' evs →
  traces_created h'
  = traces_created h
    + length (filter (λ ev, ev_type ev = "trace-create") evs).
Proof.
  unfold enqueued, traces_created, events_of_type. intros ->.
  by rewrite filter_app, length_app.
Qed.

(** Evaluates a [filter] on the type of explicitly listed events. *)
Ltac filter_events :=
  cbn [app];
  repeat first
    [ rewrite filter_nil
    | rewrite filter_cons_True by (cbn [ev_type]; done)
    | rewrite filter_cons_False by (cbn [ev_type]; done) ].

(** ** Model-name extraction and [__on_llm_action] *)

Section ModelNameProperties.
Variable extract : dict → dict → res (option string).

Lemma parse_returns serialized kwargs h :
  ∃ m, (_parse_model_and_log_errors extract serialized kwargs h).2 = inr m.
Proof.
  unfold _parse_model_and_log_errors. mred.
  destruct (extract serialized kwargs) as [e|[s|]]; mred; eauto.
  destruct (decide (s ≠ "")); mred; eauto.
Qed.

Lemma parse_frame serialized kwargs h :
  let h' := (_parse_model_and_log_errors extract serialized kwargs h).1 in
  runs h' = runs h ∧ trace h' = trace h ∧ root_span h' = root_span h
  ∧ langfuse h' = langfuse h ∧ version h' = version h.
Proof.
  unfold _parse_model_and_log_errors. mred.
  destruct (extract serialized kwargs) as [e|[s|]]; mred; try done.
  by destruct (decide (s ≠ "")).
Qed.

(** What the extraction adds to the queue: the diagnostic event when the
    name could not be derived, nothing otherwise. *)
Lemma parse_enqueued serialized kwargs h :
  enqueued h (_parse_model_and_log_errors extract serialized kwargs h).1
    match diagnostic_of serialized kwargs (extract serialized kwargs) with
    | Some d => [sdk_log_event (Fresh (uuid_drawn h)) d]
    | None => []
    end.
Proof.
  unfold _parse_model_and_log_errors, diagnostic_of. mred.
  destruct (extract serialized kwargs) as [e|[s|]]; mred;
    try solve_enqueued.
  destruct (decide (s ≠ "")); solve_enqueued.
Qed.

Lemma llm_generate_name serialized (x y : value) :
  get_langchain_run_name serialized (<["kwargs" := x]> (<["version" := y]> ∅))
  = get_langchain_run_name serialized ∅.
Proof. by rewrite !get_langchain_run_name_other_kwarg. Qed.

Section Action.
Variables (serialized : dict) (run_id : UUID) (prompts : value)
  (parent_run_id : option UUID) (tags : option (list string))
  (metadata : option dict) (kwargs : dict).

#[local] Abbreviation action :=
  (__on_llm_action extract serialized run_id prompts parent_run_id
    tags metadata kwargs).

Lemma llm_action_returns h : (action h).2 = inr ().
Proof. apply try_except_returns. Qed.

(** Destructs the calls of the two helpers that open [__on_llm_action]
    and records what is known of the handler after each. *)
Ltac open_action h h1 h2 m :=
  unfold __on_llm_action; mred;
  match goal with
  | |- context [__generate_trace_and_parent _ _ _ _ _ _ ?kw h] =>
      pose proof (generate_returns serialized prompts run_id
                    parent_run_id tags metadata kw h) as Hgr;
      pose proof (generate_frame serialized prompts run_id
                    parent_run_id tags metadata kw h)
        as (Hg_lf & Hg_rs & Hg_v);
      pose proof (generate_enqueued serialized prompts run_id
                    parent_run_id tags metadata kw h) as (evs1 & Hg_q);
      pose proof (generate_stateful serialized prompts run_id
                    parent_run_id tags metadata kw h) as Hg_stateful;
      pose proof (generate_unknown_parent serialized prompts run_id
                    parent_run_id tags metadata kw h) as Hg_unknown;
      pose proof (generate_anchors serialized prompts run_id
                    parent_run_id tags metadata kw h) as Hg_anchors;
      pose proof (generate_root serialized prompts run_id
                    parent_run_id tags metadata kw h) as Hg_root;
      rewrite llm_generate_name in Hg_anchors, Hg_root;
      destruct (__generate_trace_and_parent serialized prompts run_id
                  parent_run_id tags metadata kw h) as [h1 []]
  end;
  cbn [fst snd] in *; [done|]; mred;
  pose proof (parse_returns serialized kwargs h1) as (m & Hpr);
  pose proof (parse_frame serialized kwargs h1)
    as (Hp_runs & Hp_trace & Hp_rs & Hp_lf & Hp_v);
  pose proof (parse_enqueued serialized kwargs h1) as Hp_q;
  destruct (_parse_model_and_log_errors extract serialized kwargs h1)
    as [h2 []];
  cbn [fst snd] in *; [done|]; mred.


(** When the descriptor's name resolves and the invocation parameters
    are a mapping, a generation is registered under the run; with a
    parent that is not registered it hangs directly under the trace. *)
Lemma llm_action_creates h ip :
  is_ok (get_langchain_run_name serialized ∅) →
  kwargs !! "invocation_params" = Some (VDict ip) →
  is_Some (langfuse h) ∨ is_Some (trace h) →
  ∃ o g,
    runs (action h).1 !! RunId run_id = Some (GenerationHandle o g)
    ∧ g_model_parameters g = model_parameters ip
    ∧ (∀ p, parent_run_id = Some p → runs h !! RunId p = None →
         o_parent_id o = None
         ∧ ∃ t, trace (action h).1 = Some t ∧ o_trace_id o = t_id t).
Proof using Type*.
  intros Hn Hip Hwf. open_action h h1 h2 m.
  destruct (Hg_anchors Hn Hwf) as [t Ht].
  apply (get_langchain_run_name_fallback_ok _ kwargs), is_ok_inv in Hn
    as [nm Hnm].
  rewrite Hnm. unfold dict_getitem. rewrite Hip. cbv [as_mapping]. mred.
  destruct parent_run_id as [p|]; mred.
  - destruct (runs h2 !! RunId p) as [ph|] eqn:Hr; mred; rewrite ?Hr; mred.
    + eexists _, _. split; [apply lookup_insert_eq|]. split; [done|].
      intros ? [= <-] Hnone.
      pose proof (Hg_unknown _ eq_refl Hnone) as Hu.
      rewrite Hp_runs, Hu in Hr. congruence.
    + destruct (root_span h2); rewrite Hp_trace, Ht; mred;
        (eexists _, _; split; [apply lookup_insert_eq|]; split; [done|]);
        intros ? _ _; (split; [done|]); hsimpl;
        rewrite ?Hp_trace, ?Ht; eauto.
  - destruct (root_span h2); mred; rewrite ?Hp_trace, ?Ht; mred;
      (eexists _, _; split; [apply lookup_insert_eq|]; split; [done|]);
      by intros.
Qed.

(** A model call that starts at a root of a stateless handler. *)
Lemma llm_action_root h lf ip :
  langfuse h = Some lf → parent_run_id = None →
  is_ok (get_langchain_run_name serialized ∅) →
  kwargs !! "invocation_params" = Some (VDict ip) →
  let h' := (action h).1 in
  (∃ t, trace h' = Some t ∧ t_id t = str_uuid run_id ∧ t_output t = VNone)
  ∧ is_Some (runs h' !! RunId run_id)
  ∧ (∀ k, k ≠ RunId run_id →
       runs h' !! k = match trace h with
                      | Some _ => None
                      | None => runs h !! k
                      end)
  ∧ traces_created h' = S (traces_created h).
Proof using Type*.
  intros Hlf Hpar Hn Hip. open_action h h1 h2 m.
  destruct (Hg_root lf Hlf Hpar Hn)
    as ((t & Ht & Hid & Hout) & Hruns & _ & ev & Hq1 & Hty).
  clear Hg_q evs1.
  assert (Hq2 : ∃ evs, enqueued h h2 (ev :: evs)
                ∧ filter (λ ev, ev_type ev = "trace-create") evs = []).
  { eexists. split; [apply (enqueued_trans _ _ _ [ev] _ Hq1 Hp_q)|].
    destruct (diagnostic_of _ _ _); by filter_events. }
  destruct Hq2 as (evs2 & Hq2 & Hf2).
  apply (get_langchain_run_name_fallback_ok _ kwargs), is_ok_inv in Hn
    as [nm Hnm].
  rewrite Hnm. unfold dict_getitem. rewrite Hip. cbv [as_mapping]. mred.
  rewrite Hpar in *. mred.
  assert (Hcount : ∀ h3 e3, enqueued h2 h3 [e3] →
            ev_type e3 ≠ "trace-create" →
            traces_created h3 = S (traces_created h)).
  { intros h3 e3 H3 Hne.
    rewrite (traces_created_enqueued h h3 _ (enqueued_trans _ _ _ _ _ Hq2 H3)).
    rewrite filter_app, length_app. cbn [app].
    rewrite filter_cons_True by done. rewrite Hf2.
    rewrite filter_cons_False by done. rewrite filter_nil.
    cbn [length]. lia. }
  assert (Hother : ∀ k x, k ≠ RunId run_id →
            <[RunId run_id := x]> (runs h2) !! k
            = match trace h with Some _ => None | None => runs h !! k end).
  { intros k x Hk. rewrite lookup_insert_ne by done.
    rewrite Hp_runs, Hruns. by destruct (trace h). }
  destruct (root_span h2);
    repeat (progress (mred; rewrite ?Hp_trace, ?Ht)).
  all: split; [by exists t|]; split; [by rewrite lookup_insert_eq|];
    split; [intros; by apply Hother|].
  all: eapply Hcount; [solve_enqueued | done].
Qed.

(** A handler built around a supplied trace or span keeps its trace
    and the other entries of its registry. *)
Lemma llm_action_stateful h :
  langfuse h = None →
  trace (action h).1 = trace h
  ∧ ∀ k, k ≠ RunId run_id → runs (action h).1 !! k = runs h !! k.
Proof using Type*.
  intros Hlf. open_action h h1 h2 m.
  destruct (Hg_stateful Hlf) as [Hruns Htr].
  assert (Hins : ∀ g k, k ≠ RunId run_id →
            <[RunId run_id := g]> (runs h2) !! k = runs h !! k).
  { intros g k Hk. by rewrite lookup_insert_ne, Hp_runs, Hruns. }
  assert (Hsame : trace h2 = trace h ∧
            ∀ k, k ≠ RunId run_id → runs h2 !! k = runs h !! k).
  { split; [congruence|]. intros. by rewrite Hp_runs, Hruns. }
  destruct (get_langchain_run_name serialized kwargs); mred; [done|].
  unfold dict_getitem.
  destruct (kwargs !! "invocation_params") as [ip|]; mred; [|done].
  destruct ip; cbv [as_mapping]; mred; try done.
  destruct Hsame as [Htr2 _].
  destruct parent_run_id as [p|]; mred.
  - destruct (runs h2 !! RunId p) eqn:Hr; mred; rewrite ?Hr; mred.
    + split; [done|apply Hins].
    + destruct (root_span h2), (trace h2) eqn:Ht2; mred;
        (split; [by rewrite ?Ht2|]);
        first [apply Hins | intros; by rewrite Hp_runs, Hruns].
  - destruct (root_span h2), (trace h2) eqn:Ht2; mred;
      (split; [by rewrite ?Ht2|]);
      first [apply Hins | intros; by rewrite Hp_runs, Hruns].
Qed.

(** The [Langfuse] client is never assigned by the method. *)
Lemma llm_action_frame h : langfuse (action h).1 = langfuse h.
Proof using Type*.
  open_action h h1 h2 m.
  assert (Hlf : langfuse h2 = langfuse h) by congruence.
  destruct (get_langchain_run_name serialized kwargs); mred; [done|].
  unfold dict_getitem.
  destruct (kwargs !! "invocation_params") as [ip|]; mred; [|done].
  destruct ip; cbv [as_mapping]; mred; try done.
  destruct parent_run_id as [p|]; mred.
  - destruct (runs h2 !! RunId p) eqn:Hr; mred; rewrite ?Hr; mred; [done|].
    by destruct (root_span h2), (trace h2).
  - by destruct (root_span h2), (trace h2).
Qed.
End Action.

Lemma on_llm_start_as_action serialized prompts run_id parent_run_id
    tags metadata kwargs h :
  on_llm_start extract serialized prompts run_id parent_run_id
    tags metadata kwargs h
  = __on_llm_action extract serialized run_id (VList (VStr <$> prompts))
      parent_run_id tags metadata kwargs
      (set_log (log h ++ [LogDebug "on llm start"]) h).
Proof.
  unfold on_llm_start, on_llm_start_body. mred.
  pose proof (llm_action_returns serialized run_id (VList (VStr <$> prompts))
                parent_run_id tags metadata kwargs
                (set_log (log h ++ [LogDebug "on llm start"]) h)) as Hr.
  by destruct (__on_llm_action _ _ _ _ _ _ _ _ _) as [h' [e|[]]].
Qed.

Lemma on_chat_model_start_as_action serialized messages run_id parent_run_id
    tags metadata kwargs h :
  kwargs !! "prompts" = None →
  on_chat_model_start extract serialized messages run_id parent_run_id
    tags metadata kwargs h
  = __on_llm_action extract serialized run_id messages
      parent_run_id tags metadata kwargs
      (set_log (log h ++ [LogDebug "on chat model start"]) h).
Proof.
  intros Hk.
  unfold on_chat_model_start, on_chat_model_start_body. rewrite Hk. mred.
  pose proof (llm_action_returns serialized run_id messages
                parent_run_id tags metadata kwargs
                (set_log (log h ++ [LogDebug "on chat model start"]) h)) as Hr.
  by destruct (__on_llm_action _ _ _ _ _ _ _ _ _) as [h' [e|[]]].
Qed.
End ModelNameProperties.


(** ** [on_chain_start] *)

Section ChainStart.
Variables (serialized : dict) (inputs : value) (run_id : UUID)
  (parent_run_id : option UUID) (tags : option (list string))
  (metadata : option dict) (kwargs : dict).

#[local] Abbreviation body :=
  (on_chain_start_body serialized inputs run_id parent_run_id
    tags metadata kwargs).

(** Destructs the call of [__generate_trace_and_parent] in the body and
    records what is known of the handler after it. *)
Ltac open_generate h h1 :=
  match goal with
  | |- context [__generate_trace_and_parent _ _ _ _ _ _ ?kw ?h0] =>
      pose proof (generate_returns serialized inputs run_id
                    parent_run_id tags metadata kw h0) as Hgr;
      pose proof (generate_stateful serialized inputs run_id
                    parent_run_id tags metadata kw h0) as Hg_stateful;
      pose proof (generate_unknown_parent serialized inputs run_id
                    parent_run_id tags metadata kw h0) as Hg_unknown;
      pose proof (generate_root serialized inputs run_id
                    parent_run_id tags metadata kw h0) as Hg_root;
      pose proof (generate_frame serialized inputs run_id
                    parent_run_id tags metadata kw h0)
        as (Hg_lf & Hg_rs & Hg_v);
      destruct (__generate_trace_and_parent serialized inputs run_id
                  parent_run_id tags metadata kw h0) as [h1 []]
  end;
  cbn [fst snd] in *; [done|]; mred.

(** A chain that starts at a root of a stateless handler. *)
Lemma chain_root h lf :
  langfuse h = Some lf → parent_run_id = None →
  is_ok (subscript_last (dict_get "id" unknown_id serialized)) →
  kwargs !! "version" = None →
  is_ok (get_langchain_run_name serialized kwargs) →
  let h' := (try_except body h).1 in
  (∃ t, trace h' = Some t ∧ t_id t = str_uuid run_id ∧ t_output t = VNone)
  ∧ is_Some (runs h' !! RunId run_id)
  ∧ (∀ k, k ≠ RunId run_id →
       runs h' !! k = match trace h with
                      | Some _ => None
                      | None => runs h !! k
                      end)
  ∧ traces_created h' = S (traces_created h).
Proof using Type*.
  intros Hlf Hpar [x Hid]%is_ok_inv Hv Hn.
  unfold on_chain_start_body, with_version_kwarg.
  rewrite Hid, Hv. mred. open_generate h h1.
  rewrite get_langchain_run_name_other_kwarg in Hg_root by done.
  destruct (Hg_root lf Hlf Hpar Hn)
    as ((t & Ht & Htid & Hout) & Hruns & _ & ev & Hq1 & Hty).
  apply is_ok_inv in Hn as [nm Hnm].
  hsimpl. rewrite Ht, Hnm, Hpar. mred.
  assert (Hcount : ∀ h3 e3, enqueued h1 h3 [e3] →
            ev_type e3 ≠ "trace-create" →
            traces_created h3 = S (traces_created h)).
  { intros h3 e3 H3 Hne.
    rewrite (traces_created_enqueued h h3 _ (enqueued_trans _ _ _ _ _ Hq1 H3)).
    cbn [app]. rewrite filter_cons_True by done.
    rewrite filter_cons_False by done. rewrite filter_nil.
    cbn [length]. lia. }
  assert (Hother : ∀ k o, k ≠ RunId run_id →
            <[RunId run_id := o]> (runs h1) !! k
            = match trace h with Some _ => None | None => runs h !! k end).
  { intros k o Hk. rewrite lookup_insert_ne by done.
    rewrite Hruns. by destruct (trace h). }
  destruct (root_span h1), (next_span_id h1); mred; rewrite ?Ht.
  all: split; [by exists t|]; split; [by rewrite lookup_insert_eq|];
    split; [intros; by apply Hother|].
  all: eapply Hcount; [solve_enqueued | done].
Qed.

(** With a parent that is not registered the body raises, and the
    registry is as before. *)
Lemma chain_unknown_parent h p :
  parent_run_id = Some p → runs h !! RunId p = None →
  ∃ h1 e, body h = (h1, inl e) ∧ runs h1 = runs h.
Proof using Type*.
  intros Hpar Hr.
  unfold on_chain_start_body, with_version_kwarg. mred.
  destruct (subscript_last _) as [e|x]; mred; [by eauto|].
  destruct (kwargs !! "version"); mred; [by eauto|].
  open_generate h h1.
  pose proof (Hg_unknown p Hpar Hr) as Hruns. hsimpl.
  destruct (trace h1); mred; [|by eauto].
  destruct (get_langchain_run_name serialized kwargs); mred; [by eauto|].
  rewrite Hpar. mred. rewrite Hruns, Hr. by eauto.
Qed.

(** A handler built around a supplied trace or span keeps its trace and
    the other entries of its registry. *)
Lemma chain_stateful h :
  langfuse h = None →
  let h' := (try_except body h).1 in
  trace h' = trace h
  ∧ ∀ k, k ≠ RunId run_id → runs h' !! k = runs h !! k.
Proof using Type*.
  intros Hlf.
  unfold on_chain_start_body, with_version_kwarg. mred.
  destruct (subscript_last _) as [e|x]; mred; [done|].
  destruct (kwargs !! "version"); mred; [done|].
  open_generate h h1.
  destruct (Hg_stateful Hlf) as [Hruns Htr]. hsimpl.
  assert (Hins : ∀ o k, k ≠ RunId run_id →
            <[RunId run_id := o]> (runs h1) !! k = runs h !! k).
  { intros o k Hk. by rewrite lookup_insert_ne, Hruns. }
  rewrite Htr.
  destruct (trace h) as [t|]; mred; [|by rewrite Hruns].
  destruct (get_langchain_run_name serialized kwargs); mred;
    [by rewrite Hruns|].
  destruct parent_run_id as [p|]; mred.
  - destruct (runs h1 !! RunId p) eqn:Hp; mred; [|by rewrite Hruns].
    destruct (next_span_id h1); mred; (split; [done|]; apply Hins).
  - destruct (root_span h1), (next_span_id h1); mred;
      (split; [done|]; apply Hins).
Qed.

(** The [Langfuse] client is never assigned by the method. *)
Lemma chain_frame h : langfuse (try_except body h).1 = langfuse h.
Proof using Type*.
  unfold on_chain_start_body, with_version_kwarg. mred.
  destruct (subscript_last _) as [e|x]; mred; [done|].
  destruct (kwargs !! "version"); mred; [done|].
  open_generate h h1. hsimpl.
  destruct (trace h1) as [t|]; mred; [|done].
  destruct (get_langchain_run_name serialized kwargs); mred; [done|].
  destruct parent_run_id as [p|]; mred.
  - destruct (runs h1 !! RunId p) eqn:Hp; mred; [|done].
    by destruct (next_span_id h1).
  - by destruct (root_span h1), (next_span_id h1).
Qed.
End ChainStart.


(** ** End and error notifications *)

Ltac unfold_methods :=
  unfold after, outcome, notify, method_body,
    on_chain_end, on_chain_end_body, on_chain_error, on_chain_error_body,
    on_tool_end, on_tool_end_body, on_tool_error, on_tool_error_body,
    on_retriever_end, on_retriever_end_body,
    on_retriever_error, on_retriever_error_body,
    on_llm_end, on_llm_end_body, on_llm_error, on_llm_error_body,
    on_agent_action, on_agent_action_body,
    on_agent_finish, on_agent_finish_body,
    on_tool_start, on_tool_start_body,
    on_retriever_start, on_retriever_start_body in *.

Section EndNotifications.
Variable extract : dict → dict → res (option string).

(** The registered handle is closed with the output of the
    notification, and the other entries stay. *)
Lemma end_closes n h o v :
  is_end n = true → end_output n = Some v →
  runs h !! RunId (run_id_of n) = Some o →
  ∃ a, runs (after extract n h)
       = <[RunId (run_id_of n) := close_handle a o]> (runs h)
       ∧ e_output a = Some v ∧ e_level a = None
       ∧ e_status_message a = None.
Proof.
  intros Hn Hv Hr.
  destruct n; try discriminate Hn; cbn [run_id_of end_output] in *;
    unfold_methods; mred; rewrite Hr; mred.
  2: destruct (last_candidate response) as [|c]; [done|];
     destruct (llm_usage_of response) as [|u]; [done|];
     destruct (_extract_response c) as [|w]; [done|]; mred.
  all: injection Hv as <-; rewrite Hr; mred.
  all: destruct parent_run_id as [p|], (trace h) as [t|]; mred;
    try destruct (decide _); mred; by eexists.
Qed.

(** The root completion: the output is written onto the trace. *)
Lemma end_updates_trace n h o v t :
  is_end n = true → end_output n = Some v →
  parent_run_id_of n = None →
  runs h !! RunId (run_id_of n) = Some o →
  trace h = Some t → t_id t = str_uuid (run_id_of n) →
  trace (after extract n h) = Some (trace_with_output v t).
Proof.
  intros Hn Hv Hp Hr Ht Hid.
  destruct n; try discriminate Hn;
    cbn [run_id_of parent_run_id_of end_output] in *;
    unfold_methods; subst; mred; rewrite Hr; mred.
  2: destruct (last_candidate response) as [|c]; [done|];
     destruct (llm_usage_of response) as [|u]; [done|];
     destruct (_extract_response c) as [|w]; [done|]; mred.
  all: injection Hv as <-; rewrite Hr; mred; rewrite Ht; mred.
  all: rewrite decide_True by done; by mred.
Qed.

(** Away from the root completion the trace is left as it is. *)
Lemma end_keeps_trace n h :
  is_end n = true →
  is_Some (parent_run_id_of n) ∨ trace h = None
  ∨ (∃ t, trace h = Some t ∧ t_id t ≠ str_uuid (run_id_of n)) →
  trace (after extract n h) = trace h.
Proof.
  intros Hn Hc.
  destruct n; try discriminate Hn;
    cbn [run_id_of parent_run_id_of] in *; unfold_methods; mred.
  all: destruct (runs h !! RunId run_id) eqn:Hr; mred; [|done].
  all: try (destruct (last_candidate _) as [|c]; mred; [done|];
            destruct (llm_usage_of _) as [|u]; mred; [done|];
            destruct (_extract_response c) as [|w]; mred; [done|]).
  all: rewrite Hr; mred.
  all: destruct parent_run_id as [p|]; mred; [done|].
  all: destruct (trace h) as [t|] eqn:Ht; mred; [|done].
  all: destruct (decide _) as [Heq|]; mred; [|done].
  all: destruct Hc as [[? [=]]|[Hc|(t' & Ht' & Hne)]]; congruence.
Qed.

(** An end notification creates no trace. *)
Lemma end_creates_no_trace n h :
  is_end n = true →
  traces_created (after extract n h) = traces_created h.
Proof.
  intros Hn.
  assert (Hcount : ∀ h' evs, enqueued h h' evs →
            filter (λ ev, ev_type ev = "trace-create") evs = [] →
            traces_created h' = traces_created h).
  { intros h' evs Hq Hf.
    rewrite (traces_created_enqueued _ _ _ Hq), Hf. cbn [length]. lia. }
  assert (Hupd : ∀ o : ObservationHandle,
            match o with
            | SpanHandle _ => "span-update"
            | GenerationHandle _ _ => "generation-update"
            end ≠ "trace-create") by by intros [].
  destruct n; try discriminate Hn;
    cbn [run_id_of parent_run_id_of] in *; unfold_methods; mred.
  all: destruct (runs h !! RunId run_id) as [o|] eqn:Hr; mred;
    [|eapply Hcount; [solve_enqueued|done]].
  all: try (destruct (last_candidate _) as [|c]; mred;
              [eapply Hcount; [solve_enqueued|done]|];
            destruct (llm_usage_of _) as [|u]; mred;
              [eapply Hcount; [solve_enqueued|done]|];
            destruct (_extract_response c) as [|w]; mred;
              [eapply Hcount; [solve_enqueued|done]|]).
  all: rewrite Hr; mred.
  all: destruct parent_run_id as [p|], (trace h) as [t|]; mred;
    try destruct (decide _); mred;
    (eapply Hcount; [solve_enqueued|]);
    specialize (Hupd o); by filter_events.
Qed.
End EndNotifications.


(** ** The notification methods *)

Section Claims.
Variable extract : dict → dict → res (option string).

Lemma after_llm_start a prompts h :
  after extract (OnLlmStart a prompts) h
  = (__on_llm_action extract (s_serialized a) (s_run_id a)
       (VList (VStr <$> prompts)) (s_parent_run_id a) (s_tags a)
       (s_metadata a) (s_kwargs a)
       (set_log (log h ++ [LogDebug "on llm start"]) h)).1.
Proof.
  unfold after. cbn [notify]. by rewrite on_llm_start_as_action.
Qed.

Lemma after_chat_model_start a messages h :
  s_kwargs a !! "prompts" = None →
  after extract (OnChatModelStart a messages) h
  = (__on_llm_action extract (s_serialized a) (s_run_id a)
       messages (s_parent_run_id a) (s_tags a)
       (s_metadata a) (s_kwargs a)
       (set_log (log h ++ [LogDebug "on chat model start"]) h)).1.
Proof.
  intros Hk. unfold after. cbn [notify].
  by rewrite on_chat_model_start_as_action.
Qed.


(** A start notification of a chain or of a model call at a root of a
    stateless handler: a trace named after the run is created, the run
    is registered, and the earlier entries are gone when a trace was
    active. *)
Lemma root_start n h lf :
  langfuse h = Some lf → parent_run_id_of n = None → start_resolves n →
  let h' := after extract n h in
  (∃ t, trace h' = Some t ∧ t_id t = str_uuid (run_id_of n)
        ∧ t_output t = VNone)
  ∧ is_Some (runs h' !! RunId (run_id_of n))
  ∧ (∀ k, k ≠ RunId (run_id_of n) →
       runs h' !! k = match trace h with
                      | Some _ => None
                      | None => runs h !! k
                      end)
  ∧ traces_created h' = S (traces_created h).
Proof.
  intros Hlf Hp [Hk Hs].
  destruct n; try (by destruct Hs);
    cbn [run_id_of parent_run_id_of passes_keywords] in *.
  - destruct Hs as (Hid & Hn). unfold after. cbn [notify fst].
    by apply (chain_root _ _ _ _ _ _ _ h lf).
  - destruct Hs as (Hn & ip & Hip). cbv zeta. rewrite after_llm_start.
    pose proof (llm_action_root extract _ (s_run_id a)
                  (VList (VStr <$> prompts)) _ (s_tags a) (s_metadata a) _
                  (set_log (log h ++ [LogDebug "on llm start"]) h)
                  lf ip Hlf Hp Hn Hip) as H.
    unfold traces_created, events_of_type in *. by hsimpl.
  - destruct Hs as (Hn & ip & Hip). cbv zeta.
    rewrite after_chat_model_start by done.
    pose proof (llm_action_root extract _ (s_run_id a)
                  messages _ (s_tags a) (s_metadata a) _
                  (set_log (log h ++ [LogDebug "on chat model start"]) h)
                  lf ip Hlf Hp Hn Hip) as H.
    unfold traces_created, events_of_type in *. by hsimpl.
Qed.

(** C2 (amended): an end notification that carries an output, has no
    parent, and whose registered run is the one the active trace is
    named after, writes that output onto the trace; an end notification
    with a parent, or without an active trace, or for another run,
    leaves the trace as it is; and on a stateless handler a resolving
    root start of a chain or of a model call followed by such an end
    creates exactly one trace, whose output is the value passed to the
    end. *)
Theorem root_completion :
  (∀ n h o v t,
     is_end n = true → end_output n = Some v →
     parent_run_id_of n = None →
     runs h !! RunId (run_id_of n) = Some o →
     trace h = Some t → t_id t = str_uuid (run_id_of n) →
     trace (after extract n h) = Some (trace_with_output v t))
  ∧ (∀ n h,
       is_end n = true →
       is_Some (parent_run_id_of n) ∨ trace h = None
       ∨ (∃ t, trace h = Some t ∧ t_id t ≠ str_uuid (run_id_of n)) →
       trace (after extract n h) = trace h)
  ∧ (∀ s e h lf v,
       langfuse h = Some lf →
       parent_run_id_of s = None → start_resolves s →
       is_end e = true → run_id_of e = run_id_of s →
       parent_run_id_of e = None → end_output e = Some v →
       let h' := after extract e (after extract s h) in
       traces_created h' = S (traces_created h)
       ∧ ∃ t, trace h' = Some t ∧ t_id t = str_uuid (run_id_of s)
              ∧ t_output t = v).
Proof.
  split; [|split].
  - intros. by eapply end_updates_trace.
  - intros. by apply end_keeps_trace.
  - intros s e h lf v Hlf Hps Hs He Hid Hpe Hv. cbv zeta.
    destruct (root_start s h lf Hlf Hps Hs)
      as ((t & Ht & Htid & _) & [o Ho] & _ & Hcount).
    rewrite <- Hid in Ho, Htid. split.
    + by rewrite end_creates_no_trace.
    + rewrite (end_updates_trace extract e _ o v t) by done.
      exists (trace_with_output v t). by rewrite <- Hid.
Qed.

(** A handler built around a supplied trace or span keeps its trace and
    its other entries at every start notification. *)
Lemma start_stateful n h :
  is_start n = true → langfuse h = None →
  trace (after extract n h) = trace h
  ∧ ∀ k, k ≠ RunId (run_id_of n) →
         runs (after extract n h) !! k = runs h !! k.
Proof.
  intros Hn Hlf.
  destruct n; try discriminate Hn; cbn [run_id_of].
  - unfold after. cbn [notify]. by apply chain_stateful.
  - rewrite after_llm_start.
    by apply (llm_action_stateful extract _ _ _ _ _ _ _
                (set_log (log h ++ [LogDebug "on llm start"]) h)).
  - destruct (s_kwargs a !! "prompts") eqn:Hk.
    + unfold after. cbn [notify].
      unfold on_chat_model_start, on_chat_model_start_body.
      rewrite Hk. by mred.
    + rewrite after_chat_model_start by done.
      by apply (llm_action_stateful extract _ _ _ _ _ _ _
                  (set_log (log h ++ [LogDebug "on chat model start"]) h)).
  - unfold_methods. mred.
    destruct (s_parent_run_id a) as [p|]; mred; [|done].
    destruct (runs h !! RunId p) eqn:Hp; mred; [|done].
    destruct (__join_tags_and_metadata _ _); mred; [|done].
    rewrite Hp. mred.
    destruct (get_langchain_run_name _ _); mred; [done|].
    destruct (next_span_id h); mred;
      (split; [done|]; intros; by rewrite lookup_insert_ne).
  - unfold_methods. mred.
    destruct (s_parent_run_id a) as [p|]; mred; [|done].
    destruct (runs h !! RunId p) eqn:Hp; mred; [|done].
    rewrite Hp. mred.
    destruct (get_langchain_run_name _ _); mred; [done|].
    destruct (next_span_id h); mred;
      (split; [done|]; intros; by rewrite lookup_insert_ne).
Qed.

(** No notification assigns the [Langfuse] client. *)
Lemma notify_frame n h : langfuse (after extract n h) = langfuse h.
Proof.
  destruct n.
  1: { unfold after. cbn [notify]. apply chain_frame. }
  3: { rewrite after_llm_start.
       apply (llm_action_frame extract _ _ _ _ _ _ _
                (set_log (log h ++ [LogDebug "on llm start"]) h)). }
  3: { destruct (s_kwargs a !! "prompts") eqn:Hk.
       - unfold after. cbn [notify].
         unfold on_chat_model_start, on_chat_model_start_body.
         rewrite Hk. by mred.
       - rewrite after_chat_model_start by done.
         apply (llm_action_frame extract _ _ _ _ _ _ _
                  (set_log (log h ++ [LogDebug "on chat model start"]) h)). }
  all: unfold_methods; mred.
  all: try (destruct (s_parent_run_id a) as [p|]; mred; [|done];
            destruct (runs h !! RunId p) eqn:Hp; mred; [|done];
            try (destruct (__join_tags_and_metadata _ _); mred; [|done]);
            rewrite Hp; mred;
            destruct (get_langchain_run_name _ _); mred; [done|];
            by destruct (next_span_id h)).
  all: destruct (runs h !! RunId run_id) eqn:Hr; mred; [|done].
  all: try (destruct (last_candidate _) as [|c]; mred; [done|];
            destruct (llm_usage_of _) as [|u]; mred; [done|];
            destruct (_extract_response c) as [|w]; mred; [done|]).
  all: rewrite ?Hr; mred; try done.
  all: destruct parent_run_id as [p|], (trace h) as [t|]; mred; try done.
  all: by destruct (decide _).
Qed.

(** Outside the start notifications a trace that is held stays held. *)
Lemma trace_stays n h :
  is_start n = false → is_Some (trace h) →
  is_Some (trace (after extract n h)).
Proof.
  intros Hn [t Ht].
  destruct n; try discriminate Hn; unfold_methods; mred.
  all: destruct (runs h !! RunId run_id) eqn:Hr; mred; [|by rewrite Ht].
  all: try (destruct (last_candidate _) as [|c]; mred; [by rewrite Ht|];
            destruct (llm_usage_of _) as [|u]; mred; [by rewrite Ht|];
            destruct (_extract_response c) as [|w]; mred; [by rewrite Ht|]).
  all: rewrite ?Hr; mred; try by rewrite Ht.
  all: destruct parent_run_id as [p|]; mred; [by rewrite Ht|].
  all: rewrite Ht; mred.
  all: by destruct (decide _).
Qed.

(** Every handler that [__init__] returns is anchored, and stays so. *)
Lemma init_anchored environ a h : __init__ environ a = inr h → anchored h.
Proof.
  unfold __init__, anchored. intros H.
  repeat case_match; simplify_eq; cbn [langfuse trace]; eauto.
Qed.

(** A handler is stateless exactly when none was supplied. *)
Lemma init_stateless environ a h :
  __init__ environ a = inr h →
  a_stateful_client a = None ↔ is_Some (langfuse h).
Proof.
  unfold __init__. intros H.
  repeat case_match; simplify_eq; cbn [langfuse];
    (split; [try done|]); try (by intros [? [=]]); eauto.
Qed.

Lemma notify_anchored n h : anchored h → anchored (after extract n h).
Proof.
  unfold anchored. rewrite notify_frame.
  destruct (langfuse h) as [lf|] eqn:Hlf; [by left; eexists|].
  intros [[? [=]]|Ht]. right.
  destruct (is_start n) eqn:Hn.
  - by rewrite (proj1 (start_stateful n h Hn Hlf)).
  - by apply trace_stays.
Qed.

Lemma after_all_anchored ns h :
  anchored h → anchored (after_all extract ns h).
Proof.
  revert h. induction ns as [|n ns IH]; intros h Hh; [done|].
  cbn [after_all foldl]. apply IH. by apply notify_anchored.
Qed.


Lemma logged_failure_snoc h e :
  logged_failure (set_log (log h ++ [LogException e]) h).
Proof. exists e. hsimpl. apply last_snoc. Qed.

(** C4 (amended): a chain, tool or retriever start whose parent is not
    registered logs the failure and returns with the registry as it was;
    a start of a model call with such a parent is not dropped: once its
    name and invocation parameters resolve, its generation is registered
    under the run, directly under the trace. *)
Theorem unknown_parent_start :
  (∀ n h p,
     is_span_start n = true →
     parent_run_id_of n = Some p → runs h !! RunId p = None →
     runs (after extract n h) = runs h
     ∧ outcome extract n h = inr ()
     ∧ logged_failure (after extract n h))
  ∧ (∀ n a h p ip,
       is_generation_start n = true → start_args_of n = Some a →
       passes_keywords n →
       s_parent_run_id a = Some p → runs h !! RunId p = None →
       is_ok (get_langchain_run_name (s_serialized a) ∅) →
       s_kwargs a !! "invocation_params" = Some (VDict ip) →
       is_Some (langfuse h) ∨ is_Some (trace h) →
       ∃ o g t,
         runs (after extract n h) !! RunId (s_run_id a)
         = Some (GenerationHandle o g)
         ∧ o_parent_id o = None
         ∧ trace (after extract n h) = Some t
         ∧ o_trace_id o = t_id t).
Proof.
  split.
  - intros n h p Hn Hp Hr.
    split; [|split; [unfold outcome; rewrite notify_try_except;
                      apply try_except_returns|]];
      destruct n; try discriminate Hn; cbn [parent_run_id_of] in Hp.
    + destruct (chain_unknown_parent (s_serialized a) inputs (s_run_id a)
                  _ (s_tags a) (s_metadata a) (s_kwargs a) h p Hp Hr)
        as (h1 & e & Hb & Hruns).
      unfold after. cbn [notify]. unfold on_chain_start.
      by rewrite (try_except_raised _ _ _ _ Hb).
    + unfold_methods. mred. by rewrite Hp, Hr.
    + unfold_methods. mred. by rewrite Hp, Hr.
    + destruct (chain_unknown_parent (s_serialized a) inputs (s_run_id a)
                  _ (s_tags a) (s_metadata a) (s_kwargs a) h p Hp Hr)
        as (h1 & e & Hb & Hruns).
      unfold after. cbn [notify]. unfold on_chain_start.
      rewrite (try_except_raised _ _ _ _ Hb). apply logged_failure_snoc.
    + unfold_methods. mred. rewrite Hp, Hr. mred.
      apply (logged_failure_snoc
               (set_log (log h ++ [LogDebug "on tool start"]) h)).
    + unfold_methods. mred. rewrite Hp, Hr. mred.
      apply (logged_failure_snoc
               (set_log (log h ++ [LogDebug "on retriever start"]) h)).
  - intros n a h p ip Hn Ha Hk Hp Hr Hname Hip Hwf.
    destruct n; try discriminate Hn; injection Ha as <-;
      cbn [passes_keywords] in Hk.
    + rewrite after_llm_start.
      destruct (llm_action_creates extract (s_serialized a0) (s_run_id a0)
                  (VList (VStr <$> prompts)) (s_parent_run_id a0)
                  (s_tags a0) (s_metadata a0) (s_kwargs a0)
                  (set_log (log h ++ [LogDebug "on llm start"]) h)
                  ip Hname Hip Hwf) as (o & g & Ho & _ & Hu).
      destruct (Hu p Hp Hr) as (Hpar & t & Ht & Htid).
      by exists o, g, t.
    + rewrite after_chat_model_start by done.
      destruct (llm_action_creates extract (s_serialized a0) (s_run_id a0)
                  messages (s_parent_run_id a0)
                  (s_tags a0) (s_metadata a0) (s_kwargs a0)
                  (set_log (log h ++ [LogDebug "on chat model start"]) h)
                  ip Hname Hip Hwf) as (o & g & Ho & _ & Hu).
      destruct (Hu p Hp Hr) as (Hpar & t & Ht & Htid).
      by exists o, g, t.
Qed.

(** C5: an end or error notification of a chain, tool, retriever or model
    call whose run is not registered leaves the registry and the trace
    as they were, and returns normally. *)
Theorem unregistered_end_is_noop n h :
  is_end_or_error n = true →
  runs h !! RunId (run_id_of n) = None →
  runs (after extract n h) = runs h
  ∧ trace (after extract n h) = trace h
  ∧ outcome extract n h = inr ().
Proof.
  intros Hn Hr.
  destruct n; try discriminate Hn; cbn [run_id_of] in Hr;
    unfold_methods; mred; by rewrite Hr.
Qed.

(** An error notification replaces the registered handle by its closed
    counterpart, at the error level, with the status message that the
    method passes. *)
Lemma error_closes n h o msg :
  status_message_passed n = Some msg →
  runs h !! RunId (run_id_of n) = Some o →
  runs (after extract n h) !! RunId (run_id_of n)
  = Some (close_handle (end_with_error h msg) o).
Proof.
  intros Hm Hr.
  destruct n; try discriminate Hm; injection Hm as <-;
    cbn [run_id_of] in Hr; unfold_methods; mred; rewrite Hr; mred;
    rewrite ?Hr; mred.
  4: by rewrite lookup_insert_eq.
  all: destruct parent_run_id as [p|], (trace h) as [t|]; mred;
    try destruct (decide _); mred; by rewrite lookup_insert_eq.
Qed.


End Claims.


(** ** The properties on the sample data *)

Example init_fresh_handler : __init__ ∅ sample_args = inr fresh_handler.
Proof. vm_compute. reflexivity. Qed.

Example init_stateful_handler :
  __init__ ∅
    {| a_public_key := None; a_secret_key := None; a_host := None;
       a_debug := false;
       a_stateful_client := Some (StatefulTraceClient sample_trace []);
       a_session_id := None; a_user_id := None; a_trace_name := None;
       a_release := None; a_version := None; a_threads := None;
       a_flush_at := None; a_flush_interval := None; a_max_retries := None;
       a_timeout := None |}
  = inr stateful_handler.
Proof. vm_compute. reflexivity. Qed.



(** C2, as stated, fails: [on_llm_end] for the registered root run, with a
    response whose text is ["hi"] and whose [llm_output] has no
    [token_usage] entry, leaves the output of the trace unset; and a tool
    that starts without a parent and then ends creates no trace. *)
Lemma root_completion_counterexample :
  let n := OnLlmEnd usageless_response run_a None in
  let h := after sample_extract_model_name
             (OnToolEnd "output" run_a None)
             (after sample_extract_model_name
                (OnToolStart (start_args chain_descriptor run_a None ∅) "input")
                fresh_handler) in
  (runs chain_started !! RunId run_a ≠ None
   ∧ t_id <$> trace chain_started = Some (str_uuid run_a)
   ∧ last_candidate usageless_response = inr (text_candidate "hi")
   ∧ _extract_response (text_candidate "hi") = inr (VStr "hi")
   ∧ t_output <$> trace (after sample_extract_model_name n chain_started)
     = Some VNone)
  ∧ (langfuse fresh_handler ≠ None
     ∧ traces_created h = 0 ∧ trace h = None).
Proof. vm_compute. repeat split; by try reflexivity. Qed.


Lemma root_completion_witness :
  let h := after sample_extract_model_name root_chain_end
             (after sample_extract_model_name root_chain_start fresh_handler) in
  (langfuse fresh_handler
   = Some {| lf_public_key := "pk-lf-1"; lf_secret_key := "sk-lf-1";
             lf_host := "https://cloud.langfuse.com"; lf_debug := false;
             lf_release := None; lf_threads := None; lf_flush_at := None;
             lf_flush_interval := None; lf_max_retries := None;
             lf_timeout := None; lf_sdk_integration := "langchain" |}
   ∧ start_resolves root_chain_start
   ∧ end_output root_chain_end = Some (VStr "answer"))
  ∧ traces_created h = S (traces_created fresh_handler)
  ∧ ∃ t, trace h = Some t ∧ t_id t = str_uuid run_a
         ∧ t_output t = VStr "answer".
Proof.
  cbv zeta.
  assert (Hs : start_resolves root_chain_start)
    by (vm_compute; repeat split; reflexivity).
  split; [by repeat split|].
  destruct (root_completion sample_extract_model_name) as (_ & _ & H3).
  exact (H3 root_chain_start root_chain_end fresh_handler _ (VStr "answer")
           eq_refl eq_refl Hs eq_refl eq_refl eq_refl eq_refl).
Defined.



(** C4, as stated, fails: a model call that names a parent nobody
    registered is not dropped; its generation is registered under its run
    and nothing but the debug record is logged. *)
Lemma llm_start_unknown_parent_registers :
  let h := after sample_extract_model_name orphan_llm_start chain_started in
  parent_run_id_of orphan_llm_start = Some run_c
  ∧ runs chain_started !! RunId run_c = None
  ∧ runs chain_started !! RunId run_b = None
  ∧ runs h !! RunId run_b ≠ None
  ∧ log h = log chain_started ++ [LogDebug "on llm start"].
Proof. vm_compute. repeat split; by try reflexivity. Qed.

Lemma unknown_parent_start_witness :
  let h := after sample_extract_model_name orphan_tool_start chain_started in
  let h' := after sample_extract_model_name orphan_llm_start chain_started in
  runs chain_started !! RunId run_c = None
  ∧ (runs h = runs chain_started
     ∧ outcome sample_extract_model_name orphan_tool_start chain_started
       = inr ()
     ∧ logged_failure h)
  ∧ ∃ o g t, runs h' !! RunId run_b = Some (GenerationHandle o g)
             ∧ o_parent_id o = None ∧ trace h' = Some t
             ∧ o_trace_id o = t_id t.
Proof.
  cbv zeta.
  assert (Hr : runs chain_started !! RunId run_c = None)
    by (vm_compute; reflexivity).
  assert (Hn : is_ok (get_langchain_run_name llm_descriptor ∅))
    by (vm_compute; exact I).
  assert (Hwf : is_Some (langfuse chain_started) ∨ is_Some (trace chain_started))
    by (left; eexists; vm_compute; reflexivity).
  destruct (unknown_parent_start sample_extract_model_name) as [H1 H2].
  split; [exact Hr|]. split.
  - exact (H1 orphan_tool_start chain_started run_c eq_refl eq_refl Hr).
  - exact (H2 orphan_llm_start _ chain_started run_c _
             eq_refl eq_refl I eq_refl Hr Hn eq_refl Hwf).
Defined.

Lemma unregistered_end_is_noop_witness :
  let n := OnToolError sample_error run_c None in
  runs chain_started !! RunId run_c = None
  ∧ runs (after sample_extract_model_name n chain_started) = runs chain_started
  ∧ trace (after sample_extract_model_name n chain_started)
    = trace chain_started
  ∧ outcome sample_extract_model_name n chain_started = inr ().
Proof.
  cbv zeta.
  assert (Hr : runs chain_started !! RunId run_c = None)
    by (vm_compute; reflexivity).
  split; [exact Hr|].
  exact (unregistered_end_is_noop sample_extract_model_name
           (OnToolError sample_error run_c None) chain_started eq_refl Hr).
Defined.



(** C10: what [on_tool_error] stores.  The registered handle is closed at
    the error level, but its status message is the error object that was
    received, where [on_chain_error] on the same run stores the string
    [str(error)]. *)
Theorem on_tool_error_keeps_error_object :
  let h := after sample_extract_model_name
             (OnToolError sample_error run_b (Some run_a)) tool_started in
  let h' := after sample_extract_model_name
              (OnChainError sample_error run_b (Some run_a)) tool_started in
  (∃ o, runs h !! RunId run_b = Some (SpanHandle o)
        ∧ o_closed o = true ∧ o_level o = Some ERROR
        ∧ o_status_message o = VErr sample_error)
  ∧ (∃ o, runs h' !! RunId run_b = Some (SpanHandle o)
          ∧ o_closed o = true ∧ o_level o = Some ERROR
          ∧ o_status_message o = VStr "boom")
  ∧ str_error sample_error = "boom".
Proof.
  vm_compute. split; [|split]; [eexists; repeat split; reflexivity ..|reflexivity].
Qed.

(** * Further properties *)

(** ** The REST client *)

Section TraceClientProperties.
Context {T : Type} (parse_obj_as : value → option T).

(** Splits [handle_response] along its tests. *)
Ltac response_cases :=
  unfold TraceClient.get, TraceClient.list, TraceClient.handle_response,
    TraceClient.raise_decoded, TraceClient.response_json,
    TraceClient.mapped_status;
  repeat case_bool_decide; repeat case_match; simplify_eq.

Lemma handle_response_returns r t :
  TraceClient.handle_response parse_obj_as r = inr t
  ↔ (200 ≤ TraceClient.status_code r < 300)%Z
    ∧ ∃ v, TraceClient.json r = Some v ∧ parse_obj_as v = Some t.
Proof.
  response_cases; split;
    try (intros [= <-]); try (intros (? & ? & ? & ?)); simplify_eq; eauto;
    try lia.
Qed.


Lemma handle_response_undecodable r :
  TraceClient.handle_response parse_obj_as r = inl TraceClient.JSONDecodeError
  ↔ TraceClient.json r = None
    ∧ ((200 ≤ TraceClient.status_code r < 300)%Z
       ∨ TraceClient.status_code r ∈ TraceClient.mapped_status).
Proof.
  response_cases; rewrite ?elem_of_cons, ?elem_of_nil; split;
    try (intros [= <-]); try done; try tauto;
    try (intros [[=] _]); try (intros [_ Hs]); intuition lia.
Qed.

Lemma handle_response_typed r b :
  (TraceClient.handle_response parse_obj_as r = inl (TraceClient.Error b)
   ↔ TraceClient.status_code r = 400%Z ∧ TraceClient.json r = Some b)
  ∧ (TraceClient.handle_response parse_obj_as r
     = inl (TraceClient.UnauthorizedError b)
     ↔ TraceClient.status_code r = 401%Z ∧ TraceClient.json r = Some b)
  ∧ (TraceClient.handle_response parse_obj_as r
     = inl (TraceClient.AccessDeniedError b)
     ↔ TraceClient.status_code r = 403%Z ∧ TraceClient.json r = Some b)
  ∧ (TraceClient.handle_response parse_obj_as r
     = inl (TraceClient.NotFoundError b)
     ↔ TraceClient.status_code r = 404%Z ∧ TraceClient.json r = Some b)
  ∧ (TraceClient.handle_response parse_obj_as r
     = inl (TraceClient.MethodNotAllowedError b)
     ↔ TraceClient.status_code r = 405%Z ∧ TraceClient.json r = Some b).
Proof.
  response_cases; repeat split;
    try (intros [= <-]); try (intros [? [=]]); try (intros [? ?]);
    simplify_eq; try done; try lia.
Qed.

(** X1: What [get] and [list] give back is a parsed body, and only for a
    status code from 200 to 299 whose body decodes and has the expected
    shape. *)
Theorem trace_client_returns r t :
  (∀ trace_id,
     TraceClient.get parse_obj_as trace_id r = inr t
     ↔ (200 ≤ TraceClient.status_code r < 300)%Z
       ∧ ∃ v, TraceClient.json r = Some v ∧ parse_obj_as v = Some t)
  ∧ (∀ page limit user_id name order_by tags,
       TraceClient.list parse_obj_as page limit user_id name order_by tags r
       = inr t
       ↔ (200 ≤ TraceClient.status_code r < 300)%Z
         ∧ ∃ v, TraceClient.json r = Some v ∧ parse_obj_as v = Some t).
Proof. split; intros; apply handle_response_returns. Qed.


(** X3: A body that does not decode surfaces as [JSONDecodeError], not as an
    API error, exactly when the status code is from 200 to 299 or is one of
    the five codes with an exception class of their own. *)
Theorem trace_client_undecodable r :
  (∀ trace_id,
     TraceClient.get parse_obj_as trace_id r
     = inl TraceClient.JSONDecodeError
     ↔ TraceClient.json r = None
       ∧ ((200 ≤ TraceClient.status_code r < 300)%Z
          ∨ TraceClient.status_code r ∈ TraceClient.mapped_status))
  ∧ (∀ page limit user_id name order_by tags,
       TraceClient.list parse_obj_as page limit user_id name order_by tags r
       = inl TraceClient.JSONDecodeError
       ↔ TraceClient.json r = None
         ∧ ((200 ≤ TraceClient.status_code r < 300)%Z
            ∨ TraceClient.status_code r ∈ TraceClient.mapped_status)).
Proof. split; intros; apply handle_response_undecodable. Qed.

(** X4: Each of the five exception classes is raised by [get] and by [list]
    for its own status code and no other, with the decoded body. *)
Theorem trace_client_typed_errors r b s E :
  (s, E) ∈ TraceClient.typed_errors →
  (∀ trace_id,
     TraceClient.get parse_obj_as trace_id r = inl (E b)
     ↔ TraceClient.status_code r = s ∧ TraceClient.json r = Some b)
  ∧ (∀ page limit user_id name order_by tags,
       TraceClient.list parse_obj_as page limit user_id name order_by tags r
       = inl (E b)
       ↔ TraceClient.status_code r = s ∧ TraceClient.json r = Some b).
Proof.
  unfold TraceClient.typed_errors. rewrite !elem_of_cons, elem_of_nil.
  destruct (handle_response_typed r b) as (H0 & H1 & H3 & H4 & H5).
  intros [[= -> ->]|[[= -> ->]|[[= -> ->]|[[= -> ->]|[[= -> ->]|[]]]]]];
    split; intros; unfold TraceClient.get, TraceClient.list; assumption.
Qed.
End TraceClientProperties.

(** ** What a computation keeps *)

Lemma preserves_ret R `{!PreOrder R} {A} (a : A) :
  preserves R (mret a).
Proof. intros h. reflexivity. Qed.

Lemma preserves_raise R `{!PreOrder R} {A} e :
  preserves R (raise (A:=A) e).
Proof. intros h. reflexivity. Qed.

Lemma preserves_lift R `{!PreOrder R} {A} (r : res A) :
  preserves R (lift r).
Proof. intros h. reflexivity. Qed.

Lemma preserves_get R `{!PreOrder R} : preserves R get.
Proof. intros h. reflexivity. Qed.

Lemma preserves_modify R `{!PreOrder R} f :
  (∀ h, R h (f h)) → preserves R (modify f).
Proof. intros Hf h. apply Hf. Qed.

Lemma preserves_bind R `{!PreOrder R} {A B} (m : M A) (f : A → M B) :
  preserves R m → (∀ a, preserves R (f a)) → preserves R (m ≫= f).
Proof.
  intros Hm Hf h. specialize (Hm h).
  cbv beta iota zeta delta [mbind M_bind].
  destruct (m h) as [h1 [e|a]]; [done|].
  etrans; [exact Hm|apply Hf].
Qed.

Lemma preserves_try_catch R `{!PreOrder R} {A} (body : M A) handler :
  preserves R body → (∀ e, preserves R (handler e)) →
  preserves R (try_catch body handler).
Proof.
  intros Hm Hf h. specialize (Hm h). unfold try_catch.
  destruct (body h) as [h1 [e|a]]; [|done].
  etrans; [exact Hm|apply Hf].
Qed.

Lemma preserves_uuid4 R `{!PreOrder R} :
  (∀ h, R h (set_uuid_drawn (S (uuid_drawn h)) h)) → preserves R uuid4.
Proof. intros Hf h. apply Hf. Qed.

#[global] Instance kept_preorder {A} (f : CallbackHandler → A) :
  PreOrder (kept f).
Proof. split; [done|]. intros h1 h2 h3 H1 H2. unfold kept in *. congruence. Qed.

#[global] Instance attributes_kept_preorder : PreOrder attributes_kept.
Proof.
  split; [done|]. intros h1 h2 h3 H1 H2. unfold attributes_kept in *.
  intuition congruence.
Qed.

#[global] Instance append_only_preorder : PreOrder append_only.
Proof.
  split.
  - intros h. repeat split; [by exists []; rewrite app_nil_r..|done].
  - intros h1 h2 h3 ([e1 H1] & [l1 H1'] & ?) ([e2 H2] & [l2 H2'] & ?).
    repeat split; [exists (e1 ++ e2)|exists (l1 ++ l2)|lia];
      rewrite app_assoc; congruence.
Qed.

#[global] Instance others_kept_preorder run_id : PreOrder (others_kept run_id).
Proof.
  split; [done|]. intros h1 h2 h3 H1 H2 k Hk.
  etrans; [by apply H2|by apply H1].
Qed.

#[global] Instance same_keys_preorder : PreOrder same_keys.
Proof.
  split; [done|]. intros h1 h2 h3 H1 H2 k.
  etrans; [apply H2|apply H1].
Qed.

(** Walks through a method body with the rules above: [atom] closes the
    calls that have a lemma of their own, [fin] the assignments. *)
Ltac preserve_with atom fin :=
  repeat first
    [ solve [atom]
    | apply preserves_ret; solve [tc_solve]
    | apply preserves_raise; solve [tc_solve]
    | apply preserves_lift; solve [tc_solve]
    | apply preserves_get; solve [tc_solve]
    | apply preserves_bind; [tc_solve| |intros ?]
    | apply preserves_try_catch; [tc_solve| |intros ?]
    | apply preserves_modify; [tc_solve|intros ?; solve [fin]]
    | apply preserves_uuid4; [tc_solve|intros ?; solve [fin]]
    | match goal with
      | |- preserves _ (match ?x with _ => _ end) => destruct x eqn:?
      end
    | progress cbv zeta
    | progress unfold
        try_except, log_record, require_run, end_run, lookup_run,
        getattr_trace, set_run, _update_trace, client_end, client_span,
        client_generation, client_trace, client_trace_update, add_task,
        pick_id, _report_error, __generate_trace_and_parent,
        _parse_model_and_log_errors, __on_llm_action, setNextSpan,
        on_llm_new_token ].

Ltac unfold_bodies :=
  unfold on_chain_start_body, on_chain_end_body, on_chain_error_body,
    on_llm_start_body, on_chat_model_start_body, on_llm_end_body,
    on_llm_error_body, on_tool_start_body, on_tool_end_body,
    on_tool_error_body, on_retriever_start_body, on_retriever_end_body,
    on_retriever_error_body, on_agent_action_body, on_agent_finish_body.

Ltac unfold_notify :=
  unfold notify, on_chain_start, on_chain_end, on_chain_error, on_llm_start,
    on_chat_model_start, on_llm_end, on_llm_error, on_tool_start,
    on_tool_end, on_tool_error, on_retriever_start, on_retriever_end,
    on_retriever_error, on_agent_action, on_agent_finish;
  unfold_bodies.

Section Frames.
Variable extract : dict → dict → res (option string).

Lemma notify_attributes_kept n : preserves attributes_kept (notify extract n).
Proof.
  destruct n; unfold_notify;
    preserve_with fail ltac:(by repeat split).
Qed.

Lemma notify_append_only n : preserves append_only (notify extract n).
Proof.
  destruct n; unfold_notify;
    preserve_with fail
      ltac:(repeat split; hsimpl;
            first [by eexists|by exists []; rewrite app_nil_r|lia]).
Qed.
End Frames.

(** ** Running a computation against a postcondition *)

Lemma wp_ret {A} (a : A) Q h : Q h (inr a) → wp (mret a) Q h.
Proof. done. Qed.

Lemma wp_raise {A} e (Q : CallbackHandler → res A → Prop) h :
  Q h (inl e) → wp (raise e) Q h.
Proof. done. Qed.

Lemma wp_lift {A} (r : res A) Q h : Q h r → wp (lift r) Q h.
Proof. done. Qed.

Lemma wp_get Q h : Q h (inr h) → wp get Q h.
Proof. done. Qed.

Lemma wp_modify f Q h : Q (f h) (inr ()) → wp (modify f) Q h.
Proof. done. Qed.

Lemma wp_uuid4 Q h :
  Q (set_uuid_drawn (S (uuid_drawn h)) h) (inr (Fresh (uuid_drawn h))) →
  wp uuid4 Q h.
Proof. done. Qed.

Lemma wp_bind {A B} (m : M A) (f : A → M B) Q h :
  wp m (λ h' r, match r with
                | inl e => Q h' (inl e)
                | inr a => wp (f a) Q h'
                end) h →
  wp (m ≫= f) Q h.
Proof.
  unfold wp. cbv beta iota zeta delta [mbind M_bind].
  by destruct (m h) as [h1 [e|a]].
Qed.

Lemma wp_try_catch {A} (body : M A) handler Q h :
  wp body (λ h' r, match r with
                   | inl e => wp (handler e) Q h'
                   | inr a => Q h' (inr a)
                   end) h →
  wp (try_catch body handler) Q h.
Proof.
  unfold wp, try_catch. by destruct (body h) as [h1 [e|a]].
Qed.

Lemma wp_after extract n (P : CallbackHandler → Prop) h :
  wp (notify extract n) (λ h' _, P h') h → P (after extract n h).
Proof. done. Qed.

(** One step of a method body; the tests it meets are decided by the
    hypotheses at hand or split. *)
Ltac gsimpl :=
  cbn [fst snd next_span_id trace root_span langfuse version session_id
       user_id trace_name runs _task_manager log uuid_drawn
       set_next_span_id set_trace set_runs set_task_manager set_log
       set_uuid_drawn c_id].

Ltac rewrite_test :=
  match goal with
  | H : ?y = _ |- context [match ?y with _ => _ end] => rewrite H
  end.

Ltac destruct_inner x :=
  lazymatch x with
  | context [match ?y with _ => _ end] => destruct_inner y
  | _ => destruct x eqn:?
  end.

Ltac wp_step :=
  lazymatch goal with
  | |- wp (mret _) _ _ => apply wp_ret
  | |- wp (raise _) _ _ => apply wp_raise
  | |- wp (lift _) _ _ => apply wp_lift
  | |- wp get _ _ => apply wp_get
  | |- wp (modify _) _ _ => apply wp_modify
  | |- wp uuid4 _ _ => apply wp_uuid4
  | |- wp (mbind _ _) _ _ => apply wp_bind
  | |- wp (try_catch _ _) _ _ => apply wp_try_catch
  | |- wp (match ?x with _ => _ end) _ _ =>
      first [ progress (cbv beta iota zeta delta [in_runs]; gsimpl)
            | rewrite_test
            | destruct_inner x ]
  | |- match ?x with _ => _ end =>
      first [ progress (cbv beta iota zeta delta [in_runs]; gsimpl)
            | rewrite_test
            | destruct_inner x ]
  | |- wp _ _ _ =>
      first
        [ progress (cbv beta iota zeta delta [in_runs]; gsimpl)
        | progress unfold
            try_except, log_record, require_run, end_run, lookup_run,
            getattr_trace, set_run, _update_trace, client_end, client_span,
            client_generation, client_trace, client_trace_update, add_task,
            pick_id, _report_error, __generate_trace_and_parent,
            _parse_model_and_log_errors, __on_llm_action, setNextSpan,
            on_llm_new_token, get_trace_id ]
  | |- _ => progress (cbv beta iota zeta delta [in_runs]; gsimpl)
  end.

Ltac wp_run := repeat wp_step.

Lemma wp_state {A} (m : M A) (P : CallbackHandler → Prop) h :
  wp m (λ h' _, P h') h → P (m h).1.
Proof. done. Qed.

(** Turns a goal about the handler after a notification into a goal about
    running the method. *)
Ltac wp_start :=
  match goal with
  | |- context [after ?e ?n ?h] =>
      pattern (after e n h);
      match goal with |- ?P _ => apply (wp_after e n P h) end
  end.

(** ** Invariants of the handler *)

Section Invariants.
Variable extract : dict → dict → res (option string).

Lemma after_all_preserves (R : relation CallbackHandler) `{!PreOrder R} :
  (∀ n, preserves R (notify extract n)) →
  ∀ ns h, R h (after_all extract ns h).
Proof.
  intros Hn ns. unfold after_all.
  induction ns as [|n ns IH]; intros h; [done|].
  cbn [foldl]. etrans; [apply (Hn n)|apply IH].
Qed.

Lemma after_all_invariant (P : CallbackHandler → Prop) :
  (∀ n h, P h → P (after extract n h)) →
  ∀ ns h, P h → P (after_all extract ns h).
Proof.
  intros Hn ns. unfold after_all.
  induction ns as [|n ns IH]; intros h Hh; [done|].
  cbn [foldl]. by apply IH, Hn.
Qed.

Lemma notify_trace_stays n h :
  is_Some (trace h) → is_Some (trace (after extract n h)).
Proof.
  intros [t Ht]. apply wp_after.
  destruct n; unfold_notify; wp_run; by eauto.
Qed.

Lemma notify_registry_anchored n h :
  registry_anchored h → registry_anchored (after extract n h).
Proof.
  intros Hh. destruct (trace h) as [t|] eqn:Ht.
  { intros Hn. destruct (notify_trace_stays n h) as [t' Ht']; [by eauto|].
    congruence. }
  destruct (Hh Ht) as [Hr Hs]. apply wp_after.
  destruct n; unfold_notify; wp_run;
    unfold registry_anchored; gsimpl; intros; simplify_eq;
    rewrite ?Hr, ?lookup_empty in *; simplify_eq; done.
Qed.
End Invariants.

(** ** What each notification leaves alone *)

Section Frames2.
Variable extract : dict → dict → res (option string).

Lemma notify_next_span_kept n :
  is_leaf_start n = false →
  preserves (kept next_span_id) (notify extract n).
Proof.
  intros Hn. destruct n; try discriminate Hn; unfold_notify;
    preserve_with fail ltac:(done).
Qed.

Lemma end_run_same_keys run_id a : preserves same_keys (end_run run_id a).
Proof.
  intros h. apply (wp_state _ (same_keys h)). wp_run; try done.
  intros k. gsimpl. destruct (decide (k = RunId run_id)) as [->|Hk].
  - rewrite lookup_insert_eq. split; intros _; by eauto.
  - by rewrite lookup_insert_ne.
Qed.

Lemma notify_same_keys n :
  is_start n = false → preserves same_keys (notify extract n).
Proof.
  intros Hn. destruct n; try discriminate Hn; unfold_notify;
    preserve_with ltac:(apply end_run_same_keys) ltac:(done).
Qed.

Lemma notify_others_kept n :
  is_start n = false ∨ is_Some (parent_run_id_of n) →
  preserves (others_kept (run_id_of n)) (notify extract n).
Proof.
  intros Hn.
  assert (is_start n = true → ∃ p, parent_run_id_of n = Some p) as Hp.
  { intros Hs. destruct Hn as [Hn|[p Hn]]; [congruence|by eauto]. }
  clear Hn.
  destruct n as [[ser r pr tg md kw]|?|?|[ser r pr tg md kw]|[ser r pr tg md kw]
                |?|?|[ser r pr tg md kw]|?|?|[ser r pr tg md kw]|?|?|?|?];
    cbn [run_id_of s_run_id parent_run_id_of s_parent_run_id] in *;
    try (destruct Hp as [p ->]; [done|]);
    unfold_notify; cbn [s_run_id s_parent_run_id s_serialized s_tags
                        s_metadata s_kwargs];
    preserve_with fail
      ltac:(first [done|by intros k Hk; gsimpl; rewrite lookup_insert_ne]).
Qed.

Lemma generate_stateful_kept serialized inputs run_id parent_run_id tags
    metadata kwargs :
  preserves stateful_kept
    (__generate_trace_and_parent serialized inputs run_id parent_run_id
       tags metadata kwargs).
Proof.
  intros h. apply (wp_state _ (stateful_kept h)).
  wp_run; intros Hl; try done; congruence.
Qed.

Lemma update_trace_stateful_kept run_id parent_run_id output :
  preserves stateful_kept (_update_trace run_id parent_run_id output).
Proof.
  intros h. apply (wp_state _ (stateful_kept h)).
  wp_run; intros Hl; try done. gsimpl.
  split; [done|split].
  { by match goal with H : trace h = Some _ |- _ => rewrite H end. }
  unfold traces_created, events_of_type. gsimpl.
  rewrite filter_app. filter_events. by rewrite app_nil_r.
Qed.

#[global] Instance stateful_kept_preorder : PreOrder stateful_kept.
Proof.
  split; [done|]. intros h1 h2 h3 H1 H2 Hl.
  destruct (H1 Hl) as (Hl2 & Ht2 & Hc2).
  destruct (H2 Hl2) as (Hl3 & Ht3 & Hc3).
  repeat split; congruence.
Qed.

Lemma notify_stateful_kept n : preserves stateful_kept (notify extract n).
Proof.
  destruct n; unfold_notify;
    preserve_with
      ltac:(first [apply generate_stateful_kept
                  |apply update_trace_stateful_kept])
      ltac:(intros Hl; repeat split; try done;
            unfold traces_created, events_of_type; gsimpl;
            rewrite ?filter_app; repeat case_match;
            filter_events; by rewrite ?app_nil_r).
Qed.
End Frames2.

(** ** Tool and retriever starts *)

Section LeafStarts.
Variable extract : dict → dict → res (option string).

(** X9: A start of a tool or of a retriever whose parent is registered,
    whose name resolves and whose metadata can be built registers, under
    its run, a span that is the child of the parent's record, with the
    identifier set by [setNextSpan] if any, the input string as input and
    that metadata; it hands the span to the queue, resets the pending
    identifier to [None] and leaves the trace as it is. *)
Theorem leaf_start_registers n a h p ph name m inp :
  is_leaf_start n = true → start_args_of n = Some a →
  s_parent_run_id a = Some p → runs h !! RunId p = Some ph →
  get_langchain_run_name (s_serialized a) (s_kwargs a) = inr name →
  leaf_metadata n = Some m → start_input n = Some inp →
  let h' := after extract n h in
  let o := SpanHandle
             (new_observation (PObs ph) (span_id_from h)
                {| c_id := next_span_id h; c_name := name; c_input := inp;
                   c_metadata := m; c_version := opt_str (version h) |}) in
  runs h' = <[RunId (s_run_id a) := o]> (runs h)
  ∧ next_span_id h' = None
  ∧ trace h' = trace h
  ∧ ∃ i, enqueued h h'
           [{| ev_id := i; ev_type := "span-create";
               ev_body := BObservation o |}].
Proof.
  intros Hn Ha Hp Hph Hname Hm Hinp h' o. subst h' o.
  destruct n as [| | | | | | |a' s| | |a' s| | | |]; try discriminate Hn;
    cbn [start_args_of leaf_metadata start_input] in *; simplify_eq;
    destruct a as [ser r pr tg md kw];
    cbn [s_serialized s_run_id s_parent_run_id s_tags s_metadata
         s_kwargs] in *; subst pr.
  - destruct (__join_tags_and_metadata tg md) as [jm|] eqn:Hj;
      simplify_eq.
    wp_start.
    unfold_notify. cbn [s_serialized s_run_id s_parent_run_id s_tags
                        s_metadata s_kwargs].
    wp_run; unfold span_id_from, enqueued; gsimpl;
      rewrite ?Heqo; repeat split; try done; by eexists.
  - wp_start.
    unfold_notify. cbn [s_serialized s_run_id s_parent_run_id s_tags
                        s_metadata s_kwargs].
    wp_run; unfold span_id_from, enqueued; gsimpl;
      rewrite ?Heqo; repeat split; try done; by eexists.
Qed.

(** X10: [on_tool_start] needs metadata or a non-empty tag list: with
    [metadata=None] and tags absent or empty, nothing is registered and
    nothing is queued, the pending span identifier is kept and the failure
    is logged; under a registered parent the failure is the
    [AttributeError] of [None.update]. *)
Theorem tool_start_needs_metadata a input_str h :
  s_metadata a = None → s_tags a = None ∨ s_tags a = Some [] →
  let h' := after extract (OnToolStart a input_str) h in
  runs h' = runs h ∧ next_span_id h' = next_span_id h
  ∧ _task_manager h' = _task_manager h
  ∧ ∃ e, last (log h') = Some (LogException e)
         ∧ (in_runs (s_parent_run_id a) h = true →
            exn_kind e = AttributeError).
Proof.
  intros Hm Ht h'. subst h'.
  destruct a as [ser r pr tg md kw];
    cbn [s_serialized s_run_id s_parent_run_id s_tags s_metadata
         s_kwargs] in *; subst md.
  assert (__join_tags_and_metadata tg None = None) as Hj.
  { by destruct Ht as [-> | ->]. }
  wp_start.
  unfold_notify. cbn [s_serialized s_run_id s_parent_run_id s_tags
                      s_metadata s_kwargs].
  wp_run; repeat split; try done;
    (eexists; split; [by rewrite last_snoc|]);
    unfold in_runs; gsimpl; intros; simplify_eq; try done.
  all: by repeat match goal with
                 | H : ?x = _, H' : context [?x] |- _ => rewrite H in H'
                 end.
Qed.
End LeafStarts.

(** ** Where a started run is hung *)

Section Nesting.
Variable extract : dict → dict → res (option string).

(** X11: A chain start that resolves registers an open span named after
    the run with the inputs as input: under the record of its parent when
    it names a registered one, and for a root under the root span of the
    handler if it has one and directly under the trace otherwise. The span
    takes the identifier set by [setNextSpan], which stays pending. *)
Theorem chain_start_nests a inputs h name :
  is_ok (subscript_last (dict_get "id" unknown_id (s_serialized a))) →
  s_kwargs a !! "version" = None →
  get_langchain_run_name (s_serialized a) (s_kwargs a) = inr name →
  match s_parent_run_id a with
  | Some p => is_Some (runs h !! RunId p) ∧ is_Some (trace h)
  | None => anchored h
  end →
  let h' := after extract (OnChainStart a inputs) h in
  ∃ o t,
    runs h' !! RunId (s_run_id a) = Some (SpanHandle o)
    ∧ trace h' = Some t
    ∧ o_name o = name ∧ o_input o = inputs ∧ o_closed o = false
    ∧ (∀ s, next_span_id h = Some s → o_id o = Given s)
    ∧ next_span_id h' = next_span_id h
    ∧ match s_parent_run_id a, root_span h with
      | Some p, _ =>
          ∃ ph, runs h !! RunId p = Some ph
                ∧ o_parent_id o = Some (o_id (handle_obs ph))
                ∧ o_trace_id o = o_trace_id (handle_obs ph)
      | None, Some rs =>
          o_parent_id o = Some (o_id (handle_obs rs))
          ∧ o_trace_id o = o_trace_id (handle_obs rs)
      | None, None => o_parent_id o = None ∧ o_trace_id o = t_id t
      end.
Proof.
  intros Hid Hv Hname Hp h'. subst h'.
  destruct a as [ser r pr tg md kw];
    cbn [s_serialized s_run_id s_parent_run_id s_tags s_metadata
         s_kwargs] in *.
  apply is_ok_inv in Hid as [last_id Hid].
  assert (get_langchain_run_name ser (<["version":=opt_str (version h)]> kw)
          = inr name) as Hname'.
  { rewrite <- Hname. by apply get_langchain_run_name_other_kwarg. }
  wp_start.
  unfold_notify. cbn [s_serialized s_run_id s_parent_run_id s_tags
                      s_metadata s_kwargs].
  unfold with_version_kwarg.
  destruct pr as [p|]; [destruct Hp as [[ph Hph] [t Ht]]
                       |destruct Hp as [[lf Hlf]|[t Ht]]];
    wp_run; gsimpl; simplify_eq;
    eexists _, _; rewrite lookup_insert_eq;
    repeat match goal with |- _ ∧ _ => split end;
    first [eassumption|reflexivity|by intros ? [= <-]|by intros ? [=]
          |by eauto|by destruct (root_span h)].
Qed.

(** X12: A start of a model call that resolves registers an open
    generation named after the run (a [name] keyword overrides the
    descriptor), with the prompts or messages as input: under the record
    of a registered parent, and for a root under the root span if there is
    one and directly under the trace otherwise. Its model is the extracted
    name; an extraction that fails, returns [None] or returns the empty
    string leaves the model unset. *)
Theorem generation_nests n a h ip name :
  is_generation_start n = true → start_args_of n = Some a →
  passes_keywords n →
  is_ok (get_langchain_run_name (s_serialized a) ∅) →
  get_langchain_run_name (s_serialized a) (s_kwargs a) = inr name →
  s_kwargs a !! "invocation_params" = Some (VDict ip) →
  match s_parent_run_id a with
  | Some p => is_Some (runs h !! RunId p) ∧ is_Some (trace h)
  | None => anchored h
  end →
  let h' := after extract n h in
  ∃ o g t,
    runs h' !! RunId (s_run_id a) = Some (GenerationHandle o g)
    ∧ trace h' = Some t
    ∧ o_name o = name ∧ Some (o_input o) = start_input n
    ∧ o_closed o = false
    ∧ g_model g = match extract (s_serialized a) (s_kwargs a) with
                  | inr (Some s) => if decide (s = "") then VNone else VStr s
                  | _ => VNone
                  end
    ∧ next_span_id h' = next_span_id h
    ∧ match s_parent_run_id a, root_span h with
      | Some p, _ =>
          ∃ ph, runs h !! RunId p = Some ph
                ∧ o_parent_id o = Some (o_id (handle_obs ph))
                ∧ o_trace_id o = o_trace_id (handle_obs ph)
      | None, Some rs =>
          o_parent_id o = Some (o_id (handle_obs rs))
          ∧ o_trace_id o = o_trace_id (handle_obs rs)
      | None, None => o_parent_id o = None ∧ o_trace_id o = t_id t
      end.
Proof.
  intros Hn Ha Hk Hfb Hname Hip Hp h'. subst h'.
  apply is_ok_inv in Hfb as [cname Hfb].
  assert (∃ inp msg,
            start_input n = Some inp
            ∧ notify extract n
              = try_except
                  (log_record (LogDebug msg);;
                   __on_llm_action extract (s_serialized a) (s_run_id a)
                     inp (s_parent_run_id a) (s_tags a) (s_metadata a)
                     (s_kwargs a))) as (inp & msg & Hinp & Hnotify).
  { destruct n; try discriminate Hn;
      cbn [start_args_of start_input passes_keywords] in *; simplify_eq;
      eexists _, _; (split; [done|]); unfold_notify; [done|].
    by rewrite Hk. }
  rewrite Hinp. unfold after. rewrite Hnotify. clear Hnotify Hinp Hn Ha Hk n.
  destruct a as [ser r pr tg md kw];
    cbn [s_serialized s_run_id s_parent_run_id s_tags s_metadata
         s_kwargs] in *.
  pose proof (llm_generate_name ser (VDict kw) (opt_str (version h))) as Hg.
  rewrite Hfb in Hg.
  assert (dict_getitem "invocation_params" kw = inr (VDict ip)) as Hgi.
  { unfold dict_getitem. by rewrite Hip. }
  assert (as_mapping (VDict ip) = inr ip) as Ham by done.
  match goal with
  | |- context [(?m h).1] => pattern (m h).1;
      match goal with |- ?P _ => apply (wp_state m P h) end
  end.
  destruct pr as [p|]; [destruct Hp as [[ph Hph] [t Ht]]
                       |destruct Hp as [[lf Hlf]|[t Ht]]];
    wp_run; gsimpl; simplify_eq;
    eexists _, _, _; rewrite lookup_insert_eq;
    repeat match goal with |- _ ∧ _ => split end;
    first [eassumption|reflexivity|by eauto|by destruct (root_span h)
          |by (match goal with
               | |- context [decide (?s = "")] => destruct (decide (s = ""))
               end; first [done|tauto])].
Qed.
End Nesting.

(** ** The trace of a root run *)

Section RootRuns.
Variable extract : dict → dict → res (option string).

(** X13: The trace that a resolving root start creates on a handler with a
    client is identified by the run, has no output yet, and carries the
    input of the notification, the joined tags and metadata, and the
    session, user and version of the handler. Its name is the [trace_name]
    of the handler when there is one; otherwise the resolved name of the
    run, where a chain honours a [name] keyword and a model call does not. *)
Theorem root_trace_fields n a h lf inp :
  langfuse h = Some lf → start_args_of n = Some a →
  s_parent_run_id a = None → start_resolves n →
  start_input n = Some inp →
  let h' := after extract n h in
  ∃ t, trace h' = Some t
       ∧ t_id t = str_uuid (s_run_id a)
       ∧ t_input t = inp ∧ t_output t = VNone
       ∧ t_session_id t = opt_str (session_id h)
       ∧ t_user_id t = opt_str (user_id h)
       ∧ t_version t = opt_str (version h)
       ∧ t_metadata t
         = opt_dict (__join_tags_and_metadata (s_tags a) (s_metadata a))
       ∧ inr (t_name t)
         = match trace_name h with
           | Some nm => inr (VStr nm)
           | None =>
               get_langchain_run_name (s_serialized a)
                 (if is_generation_start n then ∅ else s_kwargs a)
           end.
Proof.
  intros Hlf Ha Hp [Hk Hres] Hinp h'. subst h'.
  destruct n as [a' x| | |a' x|a' x| | |a' x| | |a' x| | | |];
    try done; cbn [start_args_of start_input passes_keywords
                   is_generation_start] in *; simplify_eq;
    destruct a as [ser r pr tg md kw];
    cbn [s_serialized s_run_id s_parent_run_id s_tags s_metadata
         s_kwargs] in *; subst pr.
  - destruct Hres as [Hid Hname].
    apply is_ok_inv in Hid as [last_id Hid].
    apply is_ok_inv in Hname as [name Hname].
    assert (get_langchain_run_name ser
              (<["version":=opt_str (version h)]> kw) = inr name) as Hname'.
    { rewrite <- Hname. by apply get_langchain_run_name_other_kwarg. }
    wp_start. unfold_notify. unfold with_version_kwarg.
    cbn [s_serialized s_run_id s_parent_run_id s_tags s_metadata s_kwargs].
    wp_run; gsimpl; simplify_eq;
      (eexists; split; [reflexivity|]); cbn;
      repeat split; by destruct (trace_name h).
  - destruct Hres as [Hfb [ip Hip]].
    apply is_ok_inv in Hfb as [cname Hfb].
    pose proof (llm_generate_name ser (VDict kw) (opt_str (version h)))
      as Hg.
    rewrite Hfb in Hg.
    wp_start. unfold_notify.
    cbn [s_serialized s_run_id s_parent_run_id s_tags s_metadata s_kwargs].
    wp_run; gsimpl; simplify_eq;
      (eexists; split; [reflexivity|]); cbn;
      repeat split; by destruct (trace_name h).
  - destruct Hres as [Hfb [ip Hip]].
    apply is_ok_inv in Hfb as [cname Hfb].
    pose proof (llm_generate_name ser (VDict kw) (opt_str (version h)))
      as Hg.
    rewrite Hfb in Hg.
    wp_start. unfold_notify.
    cbn [s_serialized s_run_id s_parent_run_id s_tags s_metadata s_kwargs].
    wp_run; gsimpl; simplify_eq;
      (eexists; split; [reflexivity|]); cbn;
      repeat split; by destruct (trace_name h).
Qed.

(** X14: When the root run fails, [on_chain_error], [on_tool_error] and
    [on_llm_error] store the error object itself as the output of the
    trace; [on_retriever_error] leaves the trace as it is. *)
Theorem root_error_completion n h e o t :
  error_of n = Some e → parent_run_id_of n = None →
  runs h !! RunId (run_id_of n) = Some o →
  trace h = Some t → t_id t = str_uuid (run_id_of n) →
  trace (after extract n h)
  = Some match n with
         | OnRetrieverError _ _ _ => t
         | _ => trace_with_output (VErr e) t
         end.
Proof.
  intros He Hp Hr Ht Hid.
  destruct n; try discriminate He;
    cbn [error_of parent_run_id_of run_id_of] in *; simplify_eq;
    wp_start; unfold_notify; wp_run; gsimpl; by simplify_eq.
Qed.

(** X15: [on_agent_action] closes the record of a registered run with the
    action as output and never updates the trace, at the root or
    elsewhere. *)
Theorem agent_action_closes action run_id parent_run_id h o :
  runs h !! RunId run_id = Some o →
  let h' := after extract (OnAgentAction action run_id parent_run_id) h in
  runs h'
  = <[RunId run_id := close_handle (end_with_output h action) o]> (runs h)
  ∧ trace h' = trace h.
Proof.
  intros Hr h'. subst h'. wp_start. unfold_notify. by wp_run.
Qed.

Lemma completion_unregistered n h :
  is_start n = false → runs h !! RunId (run_id_of n) = None →
  let h' := after extract n h in
  runs h' = runs h ∧ trace h' = trace h
  ∧ _task_manager h' = _task_manager h.
Proof.
  intros Hn Hr h'. subst h'.
  destruct n; try discriminate Hn; cbn [run_id_of] in *;
    wp_start; unfold_notify; by wp_run.
Qed.

(** X16: After a root start opened a new trace on a handler with a client,
    an end, error or agent notification for any run of the execution
    before is dropped: the registry, the trace and the queue stay as the
    root start left them. *)
Theorem late_completion_dropped n n' h lf :
  langfuse h = Some lf → is_Some (trace h) →
  parent_run_id_of n = None → start_resolves n →
  is_start n' = false → run_id_of n' ≠ run_id_of n →
  let h1 := after extract n h in
  let h2 := after extract n' h1 in
  runs h2 = runs h1 ∧ trace h2 = trace h1
  ∧ _task_manager h2 = _task_manager h1.
Proof.
  intros Hlf [t Ht] Hp Hres Hn' Hne h1 h2. subst h1 h2.
  apply completion_unregistered; [done|].
  destruct (root_start extract n h lf Hlf Hp Hres) as (_ & _ & Hk & _).
  rewrite Hk by congruence. by rewrite Ht.
Qed.
End RootRuns.

(** ** Construction and [get_trace_id] *)

Lemma or_else_truthy x y : or_else x y = if truthy x then x else y.
Proof.
  unfold truthy, or_else. destruct x as [s|]; [|done].
  by destruct (decide (s = "")) as [->|Hs];
    [rewrite bool_decide_false by (by intros ?)|rewrite bool_decide_true].
Qed.

Lemma truthy_Some x : truthy x → ∃ s, x = Some s.
Proof. destruct x; [by eauto|done]. Qed.

(** X17: [__init__] succeeds exactly when a stateful client is supplied, or
    when both keys are available, each as a non-empty argument or a
    non-empty environment variable; otherwise it raises [ValueError]. *)
Theorem init_succeeds_iff environ a :
  (is_ok (__init__ environ a)
   ↔ is_Some (a_stateful_client a)
     ∨ ((truthy (a_public_key a) ∨ truthy (environ !! "LANGFUSE_PUBLIC_KEY"))
        ∧ (truthy (a_secret_key a)
           ∨ truthy (environ !! "LANGFUSE_SECRET_KEY"))))
  ∧ ∀ e, __init__ environ a = inl e → exn_kind e = ValueError.
Proof.
  unfold __init__. rewrite !or_else_truthy.
  destruct (a_stateful_client a) as [[t tm|o tm]|].
  1,2: split; [split; [by eauto|done]|done].
  destruct (truthy (a_public_key a)) eqn:Hpa,
    (truthy (environ !! "LANGFUSE_PUBLIC_KEY")) eqn:Hpe,
    (truthy (a_secret_key a)) eqn:Hsa,
    (truthy (environ !! "LANGFUSE_SECRET_KEY")) eqn:Hse;
    rewrite ?Hpa, ?Hpe, ?Hsa, ?Hse;
    repeat match goal with
           | H : truthy ?x = true |- _ =>
               let s := fresh "s" in
               destruct (truthy_Some x) as [s ?]; [by rewrite H|];
               simplify_eq; clear H
           | |- context [match ?x with _ => _ end] => destruct x
           end;
    (split; [|by intros ? [= <-]]);
    (split; [try done; intros _; right; by split; auto|]);
    try done; intros [[? [=]]|[[?|?] [?|?]]]; done.
Qed.

(** X18: Without a stateful client, a non-empty key or host argument wins
    over the environment, and a missing or empty one falls back to it, the
    host to [https://cloud.langfuse.com] when the environment has none; the
    handler starts with the session, user, trace name and version it was
    given, no trace and no registered run. *)
Theorem init_key_precedence environ a h :
  __init__ environ a = inr h → a_stateful_client a = None →
  ∃ lf,
    langfuse h = Some lf
    ∧ Some (lf_public_key lf)
      = (if truthy (a_public_key a) then a_public_key a
         else environ !! "LANGFUSE_PUBLIC_KEY")
    ∧ Some (lf_secret_key lf)
      = (if truthy (a_secret_key a) then a_secret_key a
         else environ !! "LANGFUSE_SECRET_KEY")
    ∧ Some (lf_host lf)
      = (if truthy (a_host a) then a_host a
         else Some (default "https://cloud.langfuse.com"
                      (environ !! "LANGFUSE_HOST")))
    ∧ session_id h = a_session_id a ∧ user_id h = a_user_id a
    ∧ trace_name h = a_trace_name a ∧ version h = a_version a
    ∧ trace h = None ∧ runs h = ∅ ∧ _task_manager h = [].
Proof.
  unfold __init__. rewrite !or_else_truthy. intros Hi Hc. rewrite Hc in Hi.
  set (pk := if truthy (a_public_key a) then _ else _) in *.
  set (sk := if truthy (a_secret_key a) then _ else _) in *.
  destruct pk as [pk|], sk as [sk|]; cbn [truthy] in Hi;
    repeat case_bool_decide; simplify_eq.
  eexists. repeat split; cbn [lf_host].
  destruct (a_host a) as [ho|]; cbn [truthy]; [|done].
  by case_bool_decide.
Qed.

(** ** Sequences of notifications *)

Section Sequences.
Variable extract : dict → dict → res (option string).

(** X5: No notification assigns the attributes fixed at construction:
    after any sequence of notifications the client, the root span, the
    version, the session, the user and the trace name of the handler are
    those it had. *)
Theorem notifications_keep_attributes ns h :
  attributes_kept h (after_all extract ns h).
Proof.
  apply after_all_preserves; [tc_solve|]. apply notify_attributes_kept.
Qed.

(** X6: The event queue and the logger only receive: after any sequence of
    notifications, the events and the log records that the handler held
    are a prefix of those it holds, none removed or rewritten. *)
Theorem notifications_append_only ns h :
  append_only h (after_all extract ns h).
Proof.
  apply after_all_preserves; [tc_solve|]. apply notify_append_only.
Qed.

(** X7: A notification that is not a root start touches no entry of the
    registry but the one of its own run; and an end, an error or an agent
    notification neither adds nor removes a key. *)
Theorem notification_touches_own_entry n h :
  is_start n = false ∨ is_Some (parent_run_id_of n) →
  (∀ k, k ≠ RunId (run_id_of n) →
     runs (after extract n h) !! k = runs h !! k)
  ∧ (is_start n = false →
     ∀ k, is_Some (runs (after extract n h) !! k)
          ↔ is_Some (runs h !! k)).
Proof.
  intros Hn. split.
  - apply (notify_others_kept extract n Hn h).
  - intros Hs. apply (notify_same_keys extract n Hs h).
Qed.

(** X8: The identifier given to [setNextSpan] stays pending through every
    notification other than a start of a tool or of a retriever: chain
    starts use it without consuming it, and model calls, ends and errors
    do not read it. *)
Theorem pending_span_id_kept id ns h :
  Forall (λ n, is_leaf_start n = false) ns →
  next_span_id (after_all extract ns (setNextSpan id h).1) = Some id.
Proof.
  intros Hns.
  change (Some id) with (next_span_id (setNextSpan id h).1).
  generalize (setNextSpan id h).1. clear h. intros h.
  unfold after_all. revert h.
  induction Hns as [|n ns Hn _ IH]; intros h; [done|].
  cbn [foldl]. rewrite IH. apply (notify_next_span_kept extract n Hn h).
Qed.

Lemma init_registry_anchored environ a h :
  __init__ environ a = inr h → registry_anchored h.
Proof.
  unfold __init__, registry_anchored. intros Hi.
  repeat case_match; by simplify_eq.
Qed.

(** X20: On a constructed handler, whatever notifications it has received,
    runs are registered only while a trace is held: when the registry is
    not empty, [get_trace_id] returns the identifier of the trace and
    leaves the handler as it is. *)
Theorem registered_runs_have_a_trace environ a ns h0 :
  __init__ environ a = inr h0 →
  let h := after_all extract ns h0 in
  runs h ≠ ∅ →
  ∃ t, trace h = Some t ∧ get_trace_id h = (h, inr (t_id t)).
Proof.
  intros Hi h Hr.
  assert (registry_anchored h) as Ha.
  { apply after_all_invariant; [|by eapply init_registry_anchored].
    intros n h1. apply notify_registry_anchored. }
  unfold get_trace_id, getattr_trace.
  cbv beta iota zeta delta [mbind M_bind mret M_ret get raise].
  destruct (trace h) as [t|] eqn:Ht; [by eauto|].
  by destruct (Ha Ht).
Qed.


(** X19: A handler built around a supplied trace or span never creates a
    trace and never changes trace: after any sequence of notifications
    [get_trace_id] returns the identifier of the client's trace, the queue
    holds no more trace creations than the client's queue did, and the
    session, the user and the trace name passed along with the client are
    not kept. *)
Theorem stateful_handler_keeps_trace environ a c ns :
  a_stateful_client a = Some c →
  ∃ h0, __init__ environ a = inr h0
        ∧ let h := after_all extract ns h0 in
          (get_trace_id h).2 = inr (client_trace_id c)
          ∧ traces_created h = traces_created h0
          ∧ langfuse h = None ∧ session_id h = None
          ∧ user_id h = None ∧ trace_name h = None.
Proof.
  intros Hc. unfold __init__. rewrite Hc.
  assert (∀ h0, langfuse h0 = None → session_id h0 = None →
                user_id h0 = None → trace_name h0 = None →
                t_id <$> trace h0 = Some (client_trace_id c) →
                let h := after_all extract ns h0 in
                (get_trace_id h).2 = inr (client_trace_id c)
                ∧ traces_created h = traces_created h0
                ∧ langfuse h = None ∧ session_id h = None
                ∧ user_id h = None ∧ trace_name h = None) as Hgen.
  { intros h0 Hl Hs Hu Hn Ht. cbv zeta.
    destruct (after_all_preserves extract stateful_kept
                (notify_stateful_kept extract) ns h0 Hl)
      as (Hl' & Ht' & Hc').
    destruct (after_all_preserves extract attributes_kept
                (notify_attributes_kept extract) ns h0)
      as (_ & _ & _ & Hs' & Hu' & Hn').
    repeat split; try congruence.
    rewrite Ht in Ht'. unfold get_trace_id, getattr_trace.
    cbv beta iota zeta delta [mbind M_bind mret M_ret get raise].
    destruct (trace (after_all extract ns h0)) as [t|];
      cbn in Ht'; cbn [snd]; congruence. }
  destruct c as [t tm|o tm]; eexists; (split; [reflexivity|]);
    by apply Hgen.
Qed.
End Sequences.

(** ** Supplied traces, and the span of [__generate_trace_and_parent] *)

Section Supplied.
Variable extract : dict → dict → res (option string).

Lemma notify_supplied_trace n h t :
  langfuse h = None → trace h = Some t →
  str_uuid (run_id_of n) ≠ t_id t →
  trace (after extract n h) = Some t.
Proof.
  intros Hl Ht Hne.
  destruct n as [[ser r pr tg md kw] x| | |[ser r pr tg md kw] x
                |[ser r pr tg md kw] x| |
                |[ser r pr tg md kw] x| |
                |[ser r pr tg md kw] x| | | |];
    cbn [run_id_of s_run_id] in Hne;
    wp_start; unfold_notify;
    cbn [s_serialized s_run_id s_parent_run_id s_tags s_metadata s_kwargs];
    wp_run; try done; by simplify_eq.
Qed.

(** X22: A trace supplied at construction is never written to by a run
    whose identifier differs from the identifier of the trace: after any
    sequence of such notifications the handler holds the trace as it was
    supplied, without output. *)
Theorem supplied_trace_is_not_updated ns h t :
  langfuse h = None → trace h = Some t →
  Forall (λ n, str_uuid (run_id_of n) ≠ t_id t) ns →
  trace (after_all extract ns h) = Some t.
Proof.
  intros Hl Ht Hns. unfold after_all. revert h Hl Ht.
  induction Hns as [|n ns Hn _ IH]; intros h Hl Ht; [done|].
  cbn [foldl]. apply IH.
  - by rewrite notify_frame.
  - by apply notify_supplied_trace.
Qed.

(** X23: On a handler that registers runs only while it holds a trace, as
    every constructed handler does, [__generate_trace_and_parent] never
    creates a span and never registers a run: its span branch needs a
    registered parent while no trace is held. *)
Theorem generate_creates_no_span serialized inputs run_id parent_run_id
    tags metadata kwargs h :
  registry_anchored h →
  let h' := (__generate_trace_and_parent serialized inputs run_id
               parent_run_id tags metadata kwargs h).1 in
  events_of_type "span-create" h' = events_of_type "span-create" h
  ∧ (runs h' = runs h ∨ runs h' = ∅).
Proof.
  intros Ha h'. subst h'.
  match goal with
  | |- context [(?m h).1] => pattern (m h).1;
      match goal with |- ?P _ => apply (wp_state m P h) end
  end.
  wp_run; unfold events_of_type; gsimpl;
    rewrite ?filter_app; filter_events; rewrite ?app_nil_r;
    try (split; [done|by eauto]).
  all: exfalso;
    match goal with
    | Ht : trace ?h0 = None, Hk : runs ?h0 !! _ = Some _ |- _ =>
        destruct (Ha Ht) as [Hr _]; rewrite Hr, lookup_empty in Hk;
        discriminate
    end.
Qed.
End Supplied.

(** ** The further properties on the sample data *)

Lemma trace_client_typed_errors_witness :
  let r := {| TraceClient.status_code := 404;
              TraceClient.json := Some (VStr "no such trace");
              TraceClient.text := "" |} in
  (404%Z, TraceClient.NotFoundError) ∈ TraceClient.typed_errors
  ∧ TraceClient.get (T:=value) Some "trace-7" r
    = inl (TraceClient.NotFoundError (VStr "no such trace")).
Proof.
  cbv zeta.
  assert (Hin : (404%Z, TraceClient.NotFoundError)
                ∈ TraceClient.typed_errors)
    by (unfold TraceClient.typed_errors; rewrite !elem_of_cons; tauto).
  split; [exact Hin|].
  by apply (proj1 (trace_client_typed_errors (T:=value) Some _ _ _ _ Hin)).
Defined.

Lemma notification_touches_own_entry_witness :
  let h := after sample_extract_model_name tool_start chain_started in
  is_Some (parent_run_id_of tool_start)
  ∧ runs h !! RunId run_a = runs chain_started !! RunId run_a.
Proof.
  cbv zeta.
  assert (Hp : is_Some (parent_run_id_of tool_start))
    by (eexists; vm_compute; reflexivity).
  split; [exact Hp|].
  apply (proj1 (notification_touches_own_entry sample_extract_model_name
                  tool_start chain_started (or_intror Hp))).
  vm_compute. discriminate.
Defined.

Lemma pending_span_id_kept_witness :
  let ns := [root_chain_start; llm_start; root_chain_end] in
  Forall (λ n, is_leaf_start n = false) ns
  ∧ next_span_id
      (after_all sample_extract_model_name ns
         (setNextSpan "span-1" fresh_handler).1)
    = Some "span-1".
Proof.
  cbv zeta.
  assert (Hns : Forall (λ n, is_leaf_start n = false)
                  [root_chain_start; llm_start; root_chain_end])
    by (repeat constructor).
  split; [exact Hns|].
  exact (pending_span_id_kept sample_extract_model_name "span-1" _
           fresh_handler Hns).
Defined.

Lemma leaf_start_registers_witness :
  let h' := after sample_extract_model_name tool_start chain_started in
  ∃ ph o,
    runs chain_started !! RunId run_a = Some ph
    ∧ runs h' = <[RunId run_b := SpanHandle o]> (runs chain_started)
    ∧ o_parent_id o = Some (o_id (handle_obs ph))
    ∧ o_input o = VStr "query"
    ∧ next_span_id h' = None.
Proof.
  cbv zeta.
  assert (∃ ph, runs chain_started !! RunId run_a = Some ph) as [ph Hph]
    by (eexists; vm_compute; reflexivity).
  assert (Hname : get_langchain_run_name
                    {[ "id" := VList [VStr "tools"; VStr "Search"] ]} ∅
                  = inr (VStr "Search"))
    by (vm_compute; reflexivity).
  destruct (leaf_start_registers sample_extract_model_name tool_start _
              chain_started run_a ph (VStr "Search") _ (VStr "query")
              eq_refl eq_refl eq_refl Hph Hname eq_refl eq_refl)
    as (Hr & Hn & _).
  eexists ph, _. split; [exact Hph|]. split; [exact Hr|].
  split; [reflexivity|]. split; [reflexivity|exact Hn].
Defined.

Lemma tool_start_needs_metadata_witness :
  let a := start_args chain_descriptor run_b (Some run_a) ∅ in
  let h' := after sample_extract_model_name (OnToolStart a "query")
              chain_started in
  s_metadata a = None ∧ s_tags a = None
  ∧ runs h' = runs chain_started
  ∧ _task_manager h' = _task_manager chain_started.
Proof.
  cbv zeta.
  destruct (tool_start_needs_metadata sample_extract_model_name
              (start_args chain_descriptor run_b (Some run_a) ∅) "query"
              chain_started eq_refl (or_introl eq_refl))
    as (Hr & _ & Hq & _).
  split; [reflexivity|]. split; [reflexivity|]. by split.
Defined.

Lemma chain_start_nests_witness :
  let a := start_args chain_descriptor run_b (Some run_a) ∅ in
  let h' := after sample_extract_model_name (OnChainStart a (VStr "sub"))
              chain_started in
  ∃ ph o,
    runs chain_started !! RunId run_a = Some ph
    ∧ runs h' !! RunId run_b = Some (SpanHandle o)
    ∧ o_name o = VStr "LLMChain"
    ∧ o_parent_id o = Some (o_id (handle_obs ph)).
Proof.
  cbv zeta.
  assert (Hid : is_ok (subscript_last
                         (dict_get "id" unknown_id chain_descriptor)))
    by (vm_compute; exact I).
  assert (Hname : get_langchain_run_name chain_descriptor ∅
                  = inr (VStr "LLMChain"))
    by (vm_compute; reflexivity).
  assert (Hp : is_Some (runs chain_started !! RunId run_a)
               ∧ is_Some (trace chain_started))
    by (split; eexists; vm_compute; reflexivity).
  assert (Hv : s_kwargs (start_args chain_descriptor run_b (Some run_a) ∅)
               !! "version" = None)
    by (vm_compute; reflexivity).
  destruct (chain_start_nests sample_extract_model_name
              (start_args chain_descriptor run_b (Some run_a) ∅)
              (VStr "sub") chain_started (VStr "LLMChain")
              Hid Hv Hname Hp)
    as (o & t & Hr & _ & Hn & _ & _ & _ & _ & ph & Hph & Hpar & _).
  exists ph, o. by repeat split.
Defined.

Lemma generation_nests_witness :
  let h' := after sample_extract_model_name llm_start chain_started in
  ∃ ph o g,
    runs chain_started !! RunId run_a = Some ph
    ∧ runs h' !! RunId run_b = Some (GenerationHandle o g)
    ∧ o_name o = VStr "OpenAI"
    ∧ g_model g = VNone
    ∧ o_parent_id o = Some (o_id (handle_obs ph)).
Proof.
  cbv zeta.
  assert (Hfb : is_ok (get_langchain_run_name llm_descriptor ∅))
    by (vm_compute; exact I).
  assert (Hname : get_langchain_run_name llm_descriptor llm_kwargs
                  = inr (VStr "OpenAI"))
    by (vm_compute; reflexivity).
  assert (Hip : llm_kwargs !! "invocation_params"
                = Some (VDict sample_invocation_params))
    by (vm_compute; reflexivity).
  assert (Hp : is_Some (runs chain_started !! RunId run_a)
               ∧ is_Some (trace chain_started))
    by (split; eexists; vm_compute; reflexivity).
  destruct (generation_nests sample_extract_model_name llm_start
              (start_args llm_descriptor run_b (Some run_a) llm_kwargs)
              chain_started sample_invocation_params (VStr "OpenAI")
              eq_refl eq_refl I Hfb Hname Hip Hp)
    as (o & g & t & Hr & _ & Hn & _ & _ & Hm & _ & ph & Hph & Hpar & _).
  exists ph, o, g. by repeat split.
Defined.

Lemma root_trace_fields_witness :
  let h' := after sample_extract_model_name root_chain_start fresh_handler in
  start_resolves root_chain_start
  ∧ ∃ t, trace h' = Some t
         ∧ t_id t = str_uuid run_a
         ∧ t_input t = VStr "question"
         ∧ t_session_id t = VStr "session-1"
         ∧ t_name t = VStr "LLMChain".
Proof.
  cbv zeta.
  assert (Hs : start_resolves root_chain_start)
    by (vm_compute; repeat split; reflexivity).
  split; [exact Hs|].
  destruct (root_trace_fields sample_extract_model_name root_chain_start
              (start_args chain_descriptor run_a None ∅) fresh_handler
              _ (VStr "question") eq_refl eq_refl eq_refl Hs eq_refl)
    as (t & Ht & Hid & Hin & _ & Hse & _ & _ & _ & Hn).
  exists t. repeat split; try done.
  vm_compute in Hn. by injection Hn.
Defined.

Lemma root_error_completion_witness :
  let n := OnChainError sample_error run_a None in
  ∃ o t,
    runs chain_started !! RunId run_a = Some o
    ∧ trace chain_started = Some t ∧ t_id t = str_uuid run_a
    ∧ trace (after sample_extract_model_name n chain_started)
      = Some (trace_with_output (VErr sample_error) t).
Proof.
  cbv zeta.
  assert (∃ o, runs chain_started !! RunId run_a = Some o) as [o Ho]
    by (eexists; vm_compute; reflexivity).
  assert (∃ t, trace chain_started = Some t ∧ t_id t = str_uuid run_a)
    as (t & Ht & Hid)
    by (eexists; split; vm_compute; reflexivity).
  exists o, t. split; [exact Ho|]. split; [exact Ht|]. split; [exact Hid|].
  exact (root_error_completion sample_extract_model_name
           (OnChainError sample_error run_a None) chain_started
           sample_error o t eq_refl eq_refl Ho Ht Hid).
Defined.

Lemma agent_action_closes_witness :
  let h' := after sample_extract_model_name
              (OnAgentAction (VStr "search") run_a None) chain_started in
  ∃ o,
    runs chain_started !! RunId run_a = Some o
    ∧ runs h' !! RunId run_a
      = Some (close_handle (end_with_output chain_started (VStr "search")) o)
    ∧ trace h' = trace chain_started.
Proof.
  cbv zeta.
  assert (∃ o, runs chain_started !! RunId run_a = Some o) as [o Ho]
    by (eexists; vm_compute; reflexivity).
  destruct (agent_action_closes sample_extract_model_name (VStr "search")
              run_a None chain_started o Ho) as [Hr Ht].
  exists o. split; [exact Ho|]. split; [|exact Ht].
  rewrite Hr. apply lookup_insert_eq.
Defined.

Lemma late_completion_dropped_witness :
  let h1 := after sample_extract_model_name second_chain_start
              chain_started in
  let h2 := after sample_extract_model_name root_chain_end h1 in
  start_resolves second_chain_start
  ∧ runs chain_started !! RunId run_a ≠ None
  ∧ runs h2 = runs h1 ∧ trace h2 = trace h1.
Proof.
  cbv zeta.
  assert (Hs : start_resolves second_chain_start)
    by (vm_compute; repeat split; reflexivity).
  assert (Hr : runs chain_started !! RunId run_a ≠ None)
    by (vm_compute; discriminate).
  assert (Hl : ∃ lf, langfuse chain_started = Some lf)
    by (eexists; vm_compute; reflexivity).
  assert (Ht : is_Some (trace chain_started))
    by (eexists; vm_compute; reflexivity).
  assert (Hne : run_id_of root_chain_end ≠ run_id_of second_chain_start)
    by (vm_compute; discriminate).
  destruct Hl as [lf Hl].
  destruct (late_completion_dropped sample_extract_model_name
              second_chain_start root_chain_end chain_started lf
              Hl Ht eq_refl Hs eq_refl Hne) as (H1 & H2 & _).
  split; [exact Hs|]. split; [exact Hr|]. by split.
Defined.

Lemma init_key_precedence_witness :
  let environ : gmap string string :=
    {[ "LANGFUSE_PUBLIC_KEY" := "pk-env" ]} in
  ∃ h lf,
    __init__ environ sample_args = inr h
    ∧ langfuse h = Some lf
    ∧ lf_public_key lf = "pk-lf-1"
    ∧ lf_host lf = "https://cloud.langfuse.com".
Proof.
  cbv zeta.
  assert (∃ h, __init__ {[ "LANGFUSE_PUBLIC_KEY" := "pk-env" ]} sample_args
               = inr h) as [h Hi]
    by (eexists; vm_compute; reflexivity).
  destruct (init_key_precedence _ sample_args h Hi eq_refl)
    as (lf & Hlf & Hpk & _ & Hho & _).
  exists h, lf. split; [exact Hi|]. split; [exact Hlf|].
  split; apply (inj Some); [rewrite Hpk|rewrite Hho]; vm_compute;
    reflexivity.
Defined.

Lemma registered_runs_have_a_trace_witness :
  let h := after_all sample_extract_model_name [root_chain_start; tool_start]
             fresh_handler in
  runs h ≠ ∅
  ∧ ∃ t, trace h = Some t ∧ get_trace_id h = (h, inr (t_id t)).
Proof.
  cbv zeta.
  assert (Hr : runs (after_all sample_extract_model_name
                       [root_chain_start; tool_start] fresh_handler) ≠ ∅).
  { intros Hr.
    assert (runs (after_all sample_extract_model_name
                    [root_chain_start; tool_start] fresh_handler)
            !! RunId run_a ≠ None) as Hk by (vm_compute; discriminate).
    by rewrite Hr in Hk. }
  split; [exact Hr|].
  exact (registered_runs_have_a_trace sample_extract_model_name ∅
           sample_args [root_chain_start; tool_start] fresh_handler
           init_fresh_handler Hr).
Defined.


Lemma stateful_handler_keeps_trace_witness :
  ∃ h0,
    __init__ ∅ stateful_args = inr h0
    ∧ let h := after_all sample_extract_model_name
                 [root_chain_start; root_chain_end; second_chain_start] h0 in
      (get_trace_id h).2 = inr (Given "trace-7")
      ∧ traces_created h = traces_created h0
      ∧ session_id h = None.
Proof.
  destruct (stateful_handler_keeps_trace sample_extract_model_name ∅
              stateful_args (StatefulTraceClient sample_trace [])
              [root_chain_start; root_chain_end; second_chain_start]
              eq_refl)
    as (h0 & Hi & Hg & Hc & _ & Hs & _).
  exists h0. split; [exact Hi|]. cbv zeta. split; [exact Hg|]. by split.
Defined.

Lemma supplied_trace_is_not_updated_witness :
  let ns := [root_chain_start; root_chain_end] in
  langfuse stateful_handler = None
  ∧ Forall (λ n, str_uuid (run_id_of n) ≠ t_id sample_trace) ns
  ∧ trace (after_all sample_extract_model_name ns stateful_handler)
    = Some sample_trace.
Proof.
  cbv zeta.
  assert (Hns : Forall (λ n, str_uuid (run_id_of n) ≠ t_id sample_trace)
                  [root_chain_start; root_chain_end])
    by (repeat constructor; vm_compute; discriminate).
  split; [reflexivity|]. split; [exact Hns|].
  exact (supplied_trace_is_not_updated sample_extract_model_name _
           stateful_handler sample_trace eq_refl eq_refl Hns).
Defined.

Lemma generate_creates_no_span_witness :
  let h' := (__generate_trace_and_parent chain_descriptor (VStr "sub")
               run_b (Some run_a) None None ∅ chain_started).1 in
  registry_anchored chain_started
  ∧ events_of_type "span-create" h'
    = events_of_type "span-create" chain_started.
Proof.
  cbv zeta.
  assert (Ha : registry_anchored chain_started)
    by (intros Ht; vm_compute in Ht; discriminate).
  split; [exact Ha|].
  exact (proj1 (generate_creates_no_span chain_descriptor (VStr "sub")
                  run_b (Some run_a) None None ∅ chain_started Ha)).
Defined.
